(** * Trading client and trading page of dsa-web

    A shallow embedding of [api/trading.ts] (the typed REST client) and of
    the event handlers of [pages/TradingPage.tsx], with the properties the
    specification states about them.

    Modelling conventions.
    - A JavaScript string is a [string] holding its UTF-8 bytes (the
      string is taken to be well formed: no lone surrogate).  White space
      is the set of code points [trim] and [parseInt] strip; upper-casing
      is a built-in left open.
    - A JavaScript number is a [number]; an integer is held as a [Z], and
      [parseInt] rounds the integer it reads to the nearest double, or to
      [Infinity] beyond the largest one.
    - A JavaScript object is an association list in insertion order, updated
      by [Obj.set] the way property assignment does.
    - A promise is its [outcome]; an async function is a [prog], a tree of
      await points, run against the transport's answers. *)

From Stdlib Require Import String Ascii List ZArith Bool Lia.
Import ListNotations.
Open Scope string_scope.
Open Scope list_scope.

(** ** Strings *)

Module Str.

Definition byte (c : ascii) : nat := nat_of_ascii c.

(** White space in one byte: U+0009 to U+000D and U+0020. *)
Definition ws1 (c : ascii) : bool :=
  ((9 <=? byte c) && (byte c <=? 13) || (byte c =? 32))%nat.

(** White space in two bytes: U+00A0. *)
Definition ws2 (c1 c2 : ascii) : bool :=
  ((byte c1 =? 194) && (byte c2 =? 160))%nat.

(** White space in three bytes: U+1680, U+2000 to U+200A, U+2028, U+2029,
    U+202F, U+205F, U+3000 and U+FEFF. *)
Definition ws3 (c1 c2 c3 : ascii) : bool :=
  ((byte c1 =? 225) && (byte c2 =? 154) && (byte c3 =? 128)
   || (byte c1 =? 226) && (byte c2 =? 128)
      && ((128 <=? byte c3) && (byte c3 <=? 138)
          || (byte c3 =? 168) || (byte c3 =? 169) || (byte c3 =? 175))
   || (byte c1 =? 226) && (byte c2 =? 129) && (byte c3 =? 159)
   || (byte c1 =? 227) && (byte c2 =? 128) && (byte c3 =? 128)
   || (byte c1 =? 239) && (byte c2 =? 187) && (byte c3 =? 191))%nat.

(** The string after its first code point, when that is white space
    ([WhiteSpace] or [LineTerminator] of the language). *)
Definition strip_ws (s : string) : option string :=
  match s with
  | EmptyString => None
  | String c1 r1 =>
      if ws1 c1 then Some r1
      else
        match r1 with
        | EmptyString => None
        | String c2 r2 =>
            if ws2 c1 c2 then Some r2
            else
              match r2 with
              | EmptyString => None
              | String c3 r3 => if ws3 c1 c2 c3 then Some r3 else None
              end
        end
  end.

(** [String.prototype.trimStart] *)
Fixpoint trimStart (s : string) : string :=
  match s with
  | EmptyString => EmptyString
  | String c1 r1 =>
      if ws1 c1 then trimStart r1
      else
        match r1 with
        | EmptyString => s
        | String c2 r2 =>
            if ws2 c1 c2 then trimStart r2
            else
              match r2 with
              | EmptyString => s
              | String c3 r3 => if ws3 c1 c2 c3 then trimStart r3 else s
              end
        end
  end.

(** The string is white space from end to end. *)
Fixpoint all_whitespace (s : string) : bool :=
  match s with
  | EmptyString => true
  | String c1 r1 =>
      if ws1 c1 then all_whitespace r1
      else
        match r1 with
        | EmptyString => false
        | String c2 r2 =>
            if ws2 c1 c2 then all_whitespace r2
            else
              match r2 with
              | EmptyString => false
              | String c3 r3 => if ws3 c1 c2 c3 then all_whitespace r3 else false
              end
        end
  end.

(** [String.prototype.trimEnd]: the string up to the point from which it
    is white space to the end. *)
Fixpoint trimEnd (s : string) : string :=
  match s with
  | EmptyString => EmptyString
  | String c r => if all_whitespace s then EmptyString else String c (trimEnd r)
  end.

(** [String.prototype.trim] *)
Definition trim (s : string) : string := trimEnd (trimStart s).

(** Truthiness of a string: only the empty string is falsy. *)
Definition truthy (s : string) : bool :=
  match s with EmptyString => false | _ => true end.

(** [String.prototype.repeat] *)
Fixpoint repeat (s : string) (count : nat) : string :=
  match count with
  | O => EmptyString
  | S n => String.append s (repeat s n)
  end.

Definition is_lower (c : ascii) : bool :=
  ((97 <=? byte c) && (byte c <=? 122))%nat.

Definition upper_char (c : ascii) : ascii :=
  if is_lower c then ascii_of_nat (byte c - 32) else c.

Definition is_digit (c : ascii) : bool :=
  let n := nat_of_ascii c in ((48 <=? n) && (n <=? 57))%nat.

Definition digit_val (c : ascii) : Z := Z.of_nat (nat_of_ascii c - 48).

(** The longest prefix of decimal digits, read as an integer; [None] when
    the string does not start with a digit. *)
Fixpoint digits (acc : option Z) (s : string) : option Z :=
  match s with
  | EmptyString => acc
  | String c r =>
      if is_digit c
      then digits (Some (match acc with Some a => 10 * a + digit_val c
                                      | None => digit_val c end)%Z) r
      else acc
  end.

End Str.

(** ** Numbers and values *)

Inductive number : Type :=
| NaN
| Infinity (negative : bool)
| Int (z : Z)
| Dec (m : Z) (e : positive).   (* m / 10^e, not integral *)

(** [isNaN] *)
Definition isNaN (n : number) : bool :=
  match n with NaN => true | _ => false end.

(** [n <= 0] *)
Definition le_zero (n : number) : bool :=
  match n with
  | NaN => false
  | Infinity negative => negative
  | Int z => (z <=? 0)%Z
  | Dec m _ => (m <=? 0)%Z
  end.

(** [n >= 0] *)
Definition ge_zero (n : number) : bool :=
  match n with
  | NaN => false
  | Infinity negative => negb negative
  | Int z => (0 <=? z)%Z
  | Dec m _ => (0 <=? m)%Z
  end.

(** The double nearest to a natural number, ties to even: the number
    itself up to 53 bits, a multiple of a power of two beyond, [Infinity]
    from [2^1024 - 2^970] on. *)
Definition round_to_double (v : Z) : number :=
  let bits := (Z.log2 v + 1)%Z in
  if (bits <=? 53)%Z then Int v
  else
    let shift := (bits - 53)%Z in
    let q := Z.shiftr v shift in
    let r := (v - Z.shiftl q shift)%Z in
    let half := Z.shiftl 1 (shift - 1) in
    let q := if (half <? r)%Z || ((r =? half)%Z && Z.odd q) then (q + 1)%Z else q in
    let rounded := Z.shiftl q shift in
    if (Z.shiftl 1 1024 <=? rounded)%Z then Infinity false else Int rounded.

(** [parseInt(s, 10)]: leading white space is skipped, then an optional
    sign, then the longest run of decimal digits; [NaN] without a digit,
    otherwise the integer read, rounded to a double.  (The language lets
    an implementation drop digits after the twentieth; all are kept
    here.) *)
Definition parseInt (s : string) : number :=
  let t := Str.trimStart s in
  let '(neg, body) :=
    match t with
    | String "-" r => (true, r)
    | String "+" r => (false, r)
    | _ => (false, t)
    end in
  match Str.digits None body with
  | None => NaN
  | Some v =>
      match round_to_double v with
      | Int m => Int (if neg then - m else m)
      | Infinity _ => Infinity neg
      | other => other
      end
  end.

Unset Elimination Schemes.
Inductive value : Type :=
| VUndefined
| VNull
| VBool (b : bool)
| VNum (n : number)
| VStr (s : string)
| VArr (items : list value)
| VObj (props : list (string * value)).
Set Elimination Schemes.

Definition object := list (string * value).

(** Induction over values that reaches inside arrays and objects. *)
Section ValueInd.
Variable P : value -> Prop.
Hypothesis Hundef : P VUndefined.
Hypothesis Hnull : P VNull.
Hypothesis Hbool : forall b, P (VBool b).
Hypothesis Hnum : forall n, P (VNum n).
Hypothesis Hstr : forall s, P (VStr s).
Hypothesis Harr : forall items, Forall P items -> P (VArr items).
Hypothesis Hobj : forall props, Forall (fun kv => P (snd kv)) props -> P (VObj props).

Fixpoint value_nested_ind (v : value) : P v :=
    match v with
    | VUndefined => Hundef
    | VNull => Hnull
    | VBool b => Hbool b
    | VNum n => Hnum n
    | VStr s => Hstr s
    | VArr items =>
        Harr items
          ((fix go (l : list value) : Forall P l :=
              match l with
              | [] => Forall_nil P
              | x :: r => Forall_cons x (value_nested_ind x) (go r)
              end) items)
    | VObj props =>
        Hobj props
          ((fix go (l : list (string * value)) : Forall (fun kv => P (snd kv)) l :=
              match l with
              | [] => Forall_nil _
              | x :: r => Forall_cons x (value_nested_ind (snd x)) (go r)
              end) props)
    end.
End ValueInd.

(** ** Objects *)

Module Obj.

(** [o[k]] on an own property; [None] when the object has no such key. *)
Fixpoint lookup (k : string) (o : object) : option value :=
  match o with
  | [] => None
  | (k', v) :: r => if String.eqb k k' then Some v else lookup k r
  end.

(** [o[k] = v]: an existing key keeps its place, a new one goes last. *)
Fixpoint set (o : object) (k : string) (v : value) : object :=
  match o with
  | [] => [(k, v)]
  | (k', v') :: r =>
      if String.eqb k k' then (k', v) :: r else (k', v') :: set r k v
  end.

Definition keys (o : object) : list string := map fst o.

(** The object built by assigning the entries in order to [acc]. *)
Definition assign (acc : object) (entries : list (string * value)) : object :=
  fold_left (fun o kv => set o (fst kv) (snd kv)) entries acc.

Definition of_entries (entries : list (string * value)) : object :=
  assign [] entries.

End Obj.

(** ** Plain objects and their prototype *)

Module Plain.

(** What an object inherits from: [Object.prototype] (an object literal),
    nothing, or a value put in place through [__proto__]. *)
Inductive prototype : Type :=
| ObjectPrototype
| NullPrototype
| ValuePrototype (v : value).

Record t : Type := mk { own : object; proto : prototype }.

(** [{}] *)
Definition empty : t := mk [] ObjectPrototype.

Definition has_own (k : string) (o : object) : bool :=
  match Obj.lookup k o with Some _ => true | None => false end.

(** An assignment to [__proto__] reaches the accessor of
    [Object.prototype]: no data property of that name comes first, on the
    object or on the value it inherits from. *)
Definition reaches_accessor (o : t) : bool :=
  if has_own "__proto__" (own o) then false
  else
    match proto o with
    | ObjectPrototype => true
    | NullPrototype => false
    | ValuePrototype (VObj props) => negb (has_own "__proto__" props)
    | ValuePrototype _ => true
    end.

(** The setter of [__proto__]: an object or [null] becomes the prototype,
    anything else is ignored. *)
Definition set_prototype (o : t) (v : value) : t :=
  match v with
  | VObj _ | VArr _ => mk (own o) (ValuePrototype v)
  | VNull => mk (own o) NullPrototype
  | _ => o
  end.

(** [o[k] = v] on a plain object: an own property is written or added,
    except that [__proto__] goes to the accessor when it reaches it. *)
Definition assign (o : t) (k : string) (v : value) : t :=
  if String.eqb k "__proto__" && reaches_accessor o
  then set_prototype o v
  else mk (Obj.set (own o) k v) (proto o).

End Plain.

(** ** The Data Mapper *)

Module Mapper.

(** Modelled from the spec: the key conversion of [toCamelCase], defined in
    [api/utils.ts], which is not among the sources.  A key of the form
    [words_joined_by_underscore] becomes [wordsJoinedByUpperFirstLetter]:
    the key is cut at its underscores, every word after the first gets an
    upper-case first letter, and the words are joined again. *)
Fixpoint words (s : string) : list string :=
  match s with
  | EmptyString => [EmptyString]
  | String c r =>
      if Ascii.eqb c "_" then EmptyString :: words r
      else match words r with
           | [] => [String c EmptyString]
           | w :: ws => String c w :: ws
           end
  end.

(** No character of the key is an underscore. *)
Fixpoint underscore_free (s : string) : bool :=
  match s with
  | EmptyString => true
  | String c r => negb (Ascii.eqb c "_") && underscore_free r
  end.

Definition capitalize (w : string) : string :=
  match w with
  | EmptyString => EmptyString
  | String c r => String (Str.upper_char c) r
  end.

Definition snakeToCamel (k : string) : string :=
  match words k with
  | [] => EmptyString
  | w :: ws => String.append w (String.concat EmptyString (map capitalize ws))
  end.

(** Modelled from the spec: [toCamelCase] of [api/utils.ts], which is not
    among the sources.  Object keys are rewritten with [snakeToCamel],
    recursively through nested objects and arrays; arrays keep their order
    and length; scalars, string values included, pass through unchanged. *)
Fixpoint toCamelCase (v : value) : value :=
  match v with
  | VArr items => VArr (map toCamelCase items)
  | VObj props =>
      VObj (Obj.of_entries
              (map (fun kv => (snakeToCamel (fst kv), toCamelCase (snd kv))) props))
  | _ => v
  end.

(** What [toCamelCase] does to one entry of an object. *)
Definition map_entry (kv : string * value) : string * value :=
  (snakeToCamel (fst kv), toCamelCase (snd kv)).

End Mapper.

(** ** Promises, requests and the transport *)

(** A settled promise.  A rejection carries an error object (what axios
    and the runtime reject with). *)
Inductive outcome (A : Type) : Type :=
| Resolved (a : A)
| Rejected (e : object).
Arguments Resolved {A} a.
Arguments Rejected {A} e.

(** The error of a property read on [null] or [undefined]. *)
Definition TypeError : object := [("name", VStr "TypeError")].

(** [v.k]: throws on [null] and [undefined]; an own property of an object;
    [undefined] otherwise (no key read by this program is a built-in
    property of an array or of a primitive). *)
Definition get_prop (v : value) (k : string) : outcome value :=
  match v with
  | VUndefined | VNull => Rejected TypeError
  | VObj props =>
      Resolved (match Obj.lookup k props with Some x => x | None => VUndefined end)
  | _ => Resolved VUndefined
  end.

(** [v?.k] *)
Definition get_opt (v : value) (k : string) : value :=
  match get_prop v k with Resolved x => x | Rejected _ => VUndefined end.

(** Falsy values: [a || b] is [b] on them. *)
Definition falsy (v : value) : bool :=
  match v with
  | VUndefined | VNull | VBool false | VNum NaN | VNum (Int 0) | VNum (Dec 0 _)
  | VStr EmptyString => true
  | _ => false
  end.

Definition or_else (a b : value) : value := if falsy a then b else a.

(** The value of a parameter with a default. *)
Definition with_default {A : Type} (d : A) (arg : option A) : A :=
  match arg with Some a => a | None => d end.

Module Http.

Inductive method : Type := GET | POST | DELETE.

(** A call [apiClient.get(url, {params})], [apiClient.post(url, data)] or
    [apiClient.delete(url)]. *)
Record request : Type := mkRequest {
  verb : method;
  url : string;
  params : object;
  data : option value
}.

(** What the transport answers: [response.data], or a rejection. *)
Definition response : Type := outcome value.

End Http.

(** ** The Trading Client: api/trading.ts *)

Inductive OrderType : Type := buy | sell.

Definition OrderType_string (t : OrderType) : string :=
  match t with buy => "buy" | sell => "sell" end.

Module PlaceOrderRequest.
Record t : Type := mk {
  stockCode : string;
  orderType : OrderType;
  quantity : number;
  price : option number
}.
End PlaceOrderRequest.

Module SetStopLossRequest.
Record t : Type := mk {
  stockCode : string;
  takeProfitPrice : option number;
  takeProfitPct : option number;
  stopLossPrice : option number;
  stopLossPct : option number
}.
End SetStopLossRequest.

Module tradingApi.

Import Mapper.

(** The operations of the client, with their arguments; an omitted
    argument of [getOrders] or [getAccountHistory] is [None]. *)
Inductive call : Type :=
| getAccount
| getPositions
| getOrders (limit : option number)
| placeOrder (request : PlaceOrderRequest.t)
| setStopLoss (request : SetStopLossRequest.t)
| getStopLoss (stockCode : string)
| getAllStopLoss
| deleteStopLoss (stockCode : string)
| getAccountHistory (days : option number)
| getPerformanceMetrics.

(** [requestData] of [placeOrder] *)
Definition placeOrder_requestData (request : PlaceOrderRequest.t) : object :=
  let requestData :=
    [("stock_code", VStr (PlaceOrderRequest.stockCode request));
     ("order_type", VStr (OrderType_string (PlaceOrderRequest.orderType request)));
     ("quantity", VNum (PlaceOrderRequest.quantity request))] in
  match PlaceOrderRequest.price request with
  | Some price => Obj.set requestData "price" (VNum price)
  | None => requestData
  end.

(** [requestData] of [setStopLoss] *)
Definition setStopLoss_requestData (request : SetStopLossRequest.t) : object :=
  let requestData := [("stock_code", VStr (SetStopLossRequest.stockCode request))] in
  let requestData :=
    match SetStopLossRequest.takeProfitPrice request with
    | Some x => Obj.set requestData "take_profit_price" (VNum x)
    | None => requestData
    end in
  let requestData :=
    match SetStopLossRequest.takeProfitPct request with
    | Some x => Obj.set requestData "take_profit_pct" (VNum x)
    | None => requestData
    end in
  let requestData :=
    match SetStopLossRequest.stopLossPrice request with
    | Some x => Obj.set requestData "stop_loss_price" (VNum x)
    | None => requestData
    end in
  match SetStopLossRequest.stopLossPct request with
  | Some x => Obj.set requestData "stop_loss_pct" (VNum x)
  | None => requestData
  end.

(** The keys a [setStopLoss] body may hold. *)
Definition setStopLoss_keys : list string :=
  ["stock_code"; "take_profit_price"; "take_profit_pct"; "stop_loss_price";
   "stop_loss_pct"].

(** The HTTP request each operation issues. *)
Definition request_of (c : call) : Http.request :=
  match c with
  | getAccount =>
      Http.mkRequest Http.GET "/api/v1/trading/account" [] None
  | getPositions =>
      Http.mkRequest Http.GET "/api/v1/trading/positions" [] None
  | getOrders limit =>
      Http.mkRequest Http.GET "/api/v1/trading/orders"
        [("limit", VNum (with_default (Int 50) limit))] None
  | placeOrder request =>
      Http.mkRequest Http.POST "/api/v1/trading/order" []
        (Some (VObj (placeOrder_requestData request)))
  | setStopLoss request =>
      Http.mkRequest Http.POST "/api/v1/trading/stop-loss" []
        (Some (VObj (setStopLoss_requestData request)))
  | getStopLoss stockCode =>
      Http.mkRequest Http.GET
        (String.append "/api/v1/trading/stop-loss/" stockCode) [] None
  | getAllStopLoss =>
      Http.mkRequest Http.GET "/api/v1/trading/stop-loss" [] None
  | deleteStopLoss stockCode =>
      Http.mkRequest Http.DELETE
        (String.append "/api/v1/trading/stop-loss/" stockCode) [] None
  | getAccountHistory days =>
      Http.mkRequest Http.GET "/api/v1/trading/account-history"
        [("days", VNum (with_default (Int 30) days))] None
  | getPerformanceMetrics =>
      Http.mkRequest Http.GET "/api/v1/trading/performance-metrics" [] None
  end.

(** What each operation returns from [response.data]: the mapped data, or
    one property of it. *)
Definition result_of (c : call) (data : value) : outcome value :=
  let data := toCamelCase data in
  match c with
  | getAccount => get_prop data "account"
  | getPositions => get_prop data "positions"
  | getOrders _ => get_prop data "orders"
  | placeOrder _ => Resolved data
  | setStopLoss _ => Resolved data
  | getStopLoss _ => get_prop data "stopLoss"
  | getAllStopLoss => get_prop data "stopLosses"
  | deleteStopLoss _ => Resolved data
  | getAccountHistory _ => get_prop data "histories"
  | getPerformanceMetrics => get_prop data "metrics"
  end.

(** The promise an operation returns, from the transport's answer: a
    transport error propagates, nothing is retried. *)
Definition settle (c : call) (response : Http.response) : outcome value :=
  match response with
  | Resolved data => result_of c data
  | Rejected e => Rejected e
  end.

End tradingApi.

(** ** Async functions *)

(** An async function of the page: it returns, awaits one operation of the
    client, or awaits [Promise.all] of several operations issued together. *)
Inductive prog (A : Type) : Type :=
| Ret (a : A)
| Await (c : tradingApi.call) (k : outcome value -> prog A)
| AwaitAll (cs : list tradingApi.call) (k : outcome (list value) -> prog A).
Arguments Ret {A} a.
Arguments Await {A} c k.
Arguments AwaitAll {A} cs k.

(** [await p] followed by [f]. *)
Fixpoint bind {A B : Type} (p : prog A) (f : A -> prog B) : prog B :=
  match p with
  | Ret a => f a
  | Await c k => Await c (fun r => bind (k r) f)
  | AwaitAll cs k => AwaitAll cs (fun r => bind (k r) f)
  end.

(** [Promise.all]: the results in order when every promise resolves, a
    rejection as soon as one rejects.  Which rejection comes first in time
    is not modelled; the first in the list is taken. *)
Fixpoint promise_all (ps : list (outcome value)) : outcome (list value) :=
  match ps with
  | [] => Resolved []
  | Rejected e :: _ => Rejected e
  | Resolved x :: r =>
      match promise_all r with
      | Resolved xs => Resolved (x :: xs)
      | Rejected e => Rejected e
      end
  end.

(** What a run awaited, in order. *)
Inductive event : Type :=
| Called (c : tradingApi.call)
| CalledAll (cs : list tradingApi.call).

(** The backend and the network: the answer to a request, given how many
    await points came before it. *)
Definition transport : Type := nat -> Http.request -> Http.response.

Definition answer (t : transport) (n : nat) (c : tradingApi.call) : outcome value :=
  tradingApi.settle c (t n (tradingApi.request_of c)).

(** Runs an async function against a transport: its result and what it
    awaited. *)
Fixpoint run {A : Type} (t : transport) (n : nat) (p : prog A) : A * list event :=
  match p with
  | Ret a => (a, [])
  | Await c k =>
      let '(a, tr) := run t (S n) (k (answer t n c)) in (a, Called c :: tr)
  | AwaitAll cs k =>
      let '(a, tr) := run t (S n) (k (promise_all (map (answer t n) cs))) in
      (a, CalledAll cs :: tr)
  end.

(** ** The Dashboard View: pages/TradingPage.tsx *)

Module TradingPage.

Import tradingApi.

Inductive MessageType : Type := success | error.

Record Message : Type := mkMessage { type : MessageType; text : value }.

(** The component's state variables, with what it leaves outside them:
    the labels of its [console.error] calls and the delays of the
    [setTimeout] callbacks it scheduled.  [stopLosses] holds the own
    properties of the lookup object. *)
Record state : Type := mkState {
  account : value;
  positions : value;
  orders : value;
  stockCode : string;
  quantity : string;
  loading : bool;
  message : option Message;
  stopLosses : object;
  showStopLossModal : bool;
  selectedStockCode : string;
  takeProfitPrice : string;
  takeProfitPct : string;
  stopLossPrice : string;
  stopLossPct : string;
  savingStopLoss : bool;
  accountHistory : value;
  performanceMetrics : value;
  console : list string;
  timeouts : list Z
}.

Definition setAccount (v : value) (s : state) : state :=
  mkState v (positions s) (orders s) (stockCode s) (quantity s) (loading s)
      (message s) (stopLosses s) (showStopLossModal s) (selectedStockCode s)
      (takeProfitPrice s) (takeProfitPct s) (stopLossPrice s) (stopLossPct s)
      (savingStopLoss s) (accountHistory s) (performanceMetrics s) (console s)
      (timeouts s).

Definition setPositions (v : value) (s : state) : state :=
  mkState (account s) v (orders s) (stockCode s) (quantity s) (loading s)
      (message s) (stopLosses s) (showStopLossModal s) (selectedStockCode s)
      (takeProfitPrice s) (takeProfitPct s) (stopLossPrice s) (stopLossPct s)
      (savingStopLoss s) (accountHistory s) (performanceMetrics s) (console s)
      (timeouts s).

Definition setOrders (v : value) (s : state) : state :=
  mkState (account s) (positions s) v (stockCode s) (quantity s) (loading s)
      (message s) (stopLosses s) (showStopLossModal s) (selectedStockCode s)
      (takeProfitPrice s) (takeProfitPct s) (stopLossPrice s) (stopLossPct s)
      (savingStopLoss s) (accountHistory s) (performanceMetrics s) (console s)
      (timeouts s).

Definition setStockCode (v : string) (s : state) : state :=
  mkState (account s) (positions s) (orders s) v (quantity s) (loading s)
      (message s) (stopLosses s) (showStopLossModal s) (selectedStockCode s)
      (takeProfitPrice s) (takeProfitPct s) (stopLossPrice s) (stopLossPct s)
      (savingStopLoss s) (accountHistory s) (performanceMetrics s) (console s)
      (timeouts s).

Definition setQuantity (v : string) (s : state) : state :=
  mkState (account s) (positions s) (orders s) (stockCode s) v (loading s)
      (message s) (stopLosses s) (showStopLossModal s) (selectedStockCode s)
      (takeProfitPrice s) (takeProfitPct s) (stopLossPrice s) (stopLossPct s)
      (savingStopLoss s) (accountHistory s) (performanceMetrics s) (console s)
      (timeouts s).

Definition setLoading (v : bool) (s : state) : state :=
  mkState (account s) (positions s) (orders s) (stockCode s) (quantity s) v
      (message s) (stopLosses s) (showStopLossModal s) (selectedStockCode s)
      (takeProfitPrice s) (takeProfitPct s) (stopLossPrice s) (stopLossPct s)
      (savingStopLoss s) (accountHistory s) (performanceMetrics s) (console s)
      (timeouts s).

Definition setMessage (v : option Message) (s : state) : state :=
  mkState (account s) (positions s) (orders s) (stockCode s) (quantity s)
      (loading s) v (stopLosses s) (showStopLossModal s) (selectedStockCode
      s) (takeProfitPrice s) (takeProfitPct s) (stopLossPrice s) (stopLossPct
      s) (savingStopLoss s) (accountHistory s) (performanceMetrics s) (console
      s) (timeouts s).

Definition setStopLosses (v : object) (s : state) : state :=
  mkState (account s) (positions s) (orders s) (stockCode s) (quantity s)
      (loading s) (message s) v (showStopLossModal s) (selectedStockCode s)
      (takeProfitPrice s) (takeProfitPct s) (stopLossPrice s) (stopLossPct s)
      (savingStopLoss s) (accountHistory s) (performanceMetrics s) (console s)
      (timeouts s).

Definition setShowStopLossModal (v : bool) (s : state) : state :=
  mkState (account s) (positions s) (orders s) (stockCode s) (quantity s)
      (loading s) (message s) (stopLosses s) v (selectedStockCode s)
      (takeProfitPrice s) (takeProfitPct s) (stopLossPrice s) (stopLossPct s)
      (savingStopLoss s) (accountHistory s) (performanceMetrics s) (console s)
      (timeouts s).

Definition setSelectedStockCode (v : string) (s : state) : state :=
  mkState (account s) (positions s) (orders s) (stockCode s) (quantity s)
      (loading s) (message s) (stopLosses s) (showStopLossModal s) v
      (takeProfitPrice s) (takeProfitPct s) (stopLossPrice s) (stopLossPct s)
      (savingStopLoss s) (accountHistory s) (performanceMetrics s) (console s)
      (timeouts s).

Definition setTakeProfitPrice (v : string) (s : state) : state :=
  mkState (account s) (positions s) (orders s) (stockCode s) (quantity s)
      (loading s) (message s) (stopLosses s) (showStopLossModal s)
      (selectedStockCode s) v (takeProfitPct s) (stopLossPrice s)
      (stopLossPct s) (savingStopLoss s) (accountHistory s)
      (performanceMetrics s) (console s) (timeouts s).

Definition setTakeProfitPct (v : string) (s : state) : state :=
  mkState (account s) (positions s) (orders s) (stockCode s) (quantity s)
      (loading s) (message s) (stopLosses s) (showStopLossModal s)
      (selectedStockCode s) (takeProfitPrice s) v (stopLossPrice s)
      (stopLossPct s) (savingStopLoss s) (accountHistory s)
      (performanceMetrics s) (console s) (timeouts s).

Definition setStopLossPrice (v : string) (s : state) : state :=
  mkState (account s) (positions s) (orders s) (stockCode s) (quantity s)
      (loading s) (message s) (stopLosses s) (showStopLossModal s)
      (selectedStockCode s) (takeProfitPrice s) (takeProfitPct s) v
      (stopLossPct s) (savingStopLoss s) (accountHistory s)
      (performanceMetrics s) (console s) (timeouts s).

Definition setStopLossPct (v : string) (s : state) : state :=
  mkState (account s) (positions s) (orders s) (stockCode s) (quantity s)
      (loading s) (message s) (stopLosses s) (showStopLossModal s)
      (selectedStockCode s) (takeProfitPrice s) (takeProfitPct s)
      (stopLossPrice s) v (savingStopLoss s) (accountHistory s)
      (performanceMetrics s) (console s) (timeouts s).

Definition setSavingStopLoss (v : bool) (s : state) : state :=
  mkState (account s) (positions s) (orders s) (stockCode s) (quantity s)
      (loading s) (message s) (stopLosses s) (showStopLossModal s)
      (selectedStockCode s) (takeProfitPrice s) (takeProfitPct s)
      (stopLossPrice s) (stopLossPct s) v (accountHistory s)
      (performanceMetrics s) (console s) (timeouts s).

Definition setAccountHistory (v : value) (s : state) : state :=
  mkState (account s) (positions s) (orders s) (stockCode s) (quantity s)
      (loading s) (message s) (stopLosses s) (showStopLossModal s)
      (selectedStockCode s) (takeProfitPrice s) (takeProfitPct s)
      (stopLossPrice s) (stopLossPct s) (savingStopLoss s) v
      (performanceMetrics s) (console s) (timeouts s).

Definition setPerformanceMetrics (v : value) (s : state) : state :=
  mkState (account s) (positions s) (orders s) (stockCode s) (quantity s)
      (loading s) (message s) (stopLosses s) (showStopLossModal s)
      (selectedStockCode s) (takeProfitPrice s) (takeProfitPct s)
      (stopLossPrice s) (stopLossPct s) (savingStopLoss s) (accountHistory s)
      v (console s) (timeouts s).

Definition consoleError (label : string) (s : state) : state :=
  mkState (account s) (positions s) (orders s) (stockCode s) (quantity s)
    (loading s) (message s) (stopLosses s) (showStopLossModal s)
    (selectedStockCode s) (takeProfitPrice s) (takeProfitPct s)
    (stopLossPrice s) (stopLossPct s) (savingStopLoss s) (accountHistory s)
    (performanceMetrics s) (console s ++ [label]) (timeouts s).

Definition setTimeout (ms : Z) (s : state) : state :=
  mkState (account s) (positions s) (orders s) (stockCode s) (quantity s)
    (loading s) (message s) (stopLosses s) (showStopLossModal s)
    (selectedStockCode s) (takeProfitPrice s) (takeProfitPct s)
    (stopLossPrice s) (stopLossPct s) (savingStopLoss s) (accountHistory s)
    (performanceMetrics s) (console s) (timeouts s ++ [ms]).

(** The state of a freshly mounted component. *)
Definition initial : state :=
  mkState VNull (VArr []) (VArr []) "" "" false None [] false "" "" "" "" ""
    false (VArr []) VNull [] [].

Section Handlers.

(** Built-ins of the language the handlers call, left open:
    [String.prototype.toUpperCase], [parseFloat], the [toString] method of
    a value, and the conversion of a value to a property key, which can
    throw. *)
Variable toUpperCase : string -> string.
Variable parseFloat : string -> number.
Variable ToString : value -> string.
Variable ToPropertyKey : value -> outcome string.

(** The property key a value is used as. *)
Definition property_key (v : value) : outcome string :=
  match v with VStr k => Resolved k | _ => ToPropertyKey v end.

(** The message is set, and cleared by a callback 3000 ms later. *)
Definition showMessage (type : MessageType) (text : value) (s : state) : state :=
  setTimeout 3000 (setMessage (Some (mkMessage type text)) s).

(** [stopLossData.forEach((sl) => { stopLossMap[sl.stockCode] = sl; })] *)
Fixpoint forEach_assign (stopLossData : list value) (stopLossMap : Plain.t)
  : outcome Plain.t :=
  match stopLossData with
  | [] => Resolved stopLossMap
  | sl :: rest =>
      match get_prop sl "stockCode" with
      | Resolved code =>
          match property_key code with
          | Resolved k => forEach_assign rest (Plain.assign stopLossMap k sl)
          | Rejected e => Rejected e
          end
      | Rejected e => Rejected e
      end
  end.

(** The own properties of the map the loop leaves, from those of the
    object literal it starts on. *)
Definition forEach_stopLoss (stopLossData : list value) (stopLossMap : object)
  : outcome object :=
  match forEach_assign stopLossData (Plain.mk stopLossMap Plain.ObjectPrototype) with
  | Resolved m => Resolved (Plain.own m)
  | Rejected e => Rejected e
  end.

(** The six read operations [loadData] passes to [Promise.all]. *)
Definition loadData_calls : list call :=
  [getAccount; getPositions; getOrders None; getAllStopLoss;
   getAccountHistory (Some (Int 30)); getPerformanceMetrics].

Definition loadData_catch (s : state) : state :=
  showMessage error (VStr "加载数据失败") (consoleError "Failed to load data:" s).

(** What [loadData] does once [Promise.all] has settled: the body of its
    [try] after the await, and its [catch]. *)
Definition loadData_settled (all : outcome (list value)) (s : state) : state :=
  match all with
  | Resolved results =>
      let accountData := nth 0 results VUndefined in
      let positionsData := nth 1 results VUndefined in
      let ordersData := nth 2 results VUndefined in
      let stopLossData := nth 3 results VUndefined in
      let historyData := nth 4 results VUndefined in
      let metricsData := nth 5 results VUndefined in
      let s := setAccount accountData s in
      let s := setPositions positionsData s in
      let s := setOrders ordersData s in
      let s := setAccountHistory historyData s in
      let s := setPerformanceMetrics metricsData s in
      match stopLossData with
      | VArr items =>
          match forEach_stopLoss items [] with
          | Resolved stopLossMap => setStopLosses stopLossMap s
          | Rejected _ => loadData_catch s
          end
      | _ => loadData_catch s
      end
  | Rejected _ => loadData_catch s
  end.

Definition loadData (s : state) : prog state :=
  AwaitAll loadData_calls (fun all => Ret (loadData_settled all s)).

(** The effect run on mount. *)
Definition onMount (s : state) : prog state := loadData s.

(** [error.response?.data?.detail?.message || fallback] *)
Definition error_text (e : object) (fallback : string) : value :=
  let response := match Obj.lookup "response" e with Some x => x | None => VUndefined end in
  or_else (get_opt (get_opt (get_opt response "data") "detail") "message")
          (VStr fallback).

(** [a === b] against a string literal *)
Definition is_string (v : value) (lit : string) : bool :=
  match v with VStr x => String.eqb x lit | _ => false end.

(** [handleBuy] and [handleSell]: the two differ in the order type, in the
    label they log and in the fallback text of a failure. *)
Definition handleOrder (side : OrderType) (label fallback : string) (s : state)
  : prog state :=
  if negb (Str.truthy (Str.trim (stockCode s)))
     || negb (Str.truthy (Str.trim (quantity s)))
  then Ret (showMessage error (VStr "请输入股票代码和数量") s)
  else
    let qty := parseInt (quantity s) in
    if isNaN qty || le_zero qty
    then Ret (showMessage error (VStr "请输入有效的数量") s)
    else
      let request :=
        PlaceOrderRequest.mk (toUpperCase (Str.trim (stockCode s))) side qty None in
      let s := setLoading true s in
      let catch (e : object) (s : state) : state :=
        showMessage error (error_text e fallback) (consoleError label s) in
      Await (placeOrder request) (fun response =>
        bind
          match response with
          | Resolved result =>
              match get_prop result "status" with
              | Resolved status =>
                  if is_string status "filled"
                  then
                    let s := showMessage success (get_opt result "message") s in
                    let s := setStockCode "" s in
                    let s := setQuantity "" s in
                    loadData s
                  else Ret (showMessage error (get_opt result "message") s)
              | Rejected e => Ret (catch e s)
              end
          | Rejected e => Ret (catch e s)
          end
          (fun s => Ret (setLoading false s))).

Definition handleBuy : state -> prog state :=
  handleOrder buy "Buy failed:" "买入失败".

Definition handleSell : state -> prog state :=
  handleOrder sell "Sell failed:" "卖出失败".

Definition closeStopLossModal (s : state) : state :=
  let s := setShowStopLossModal false s in
  let s := setSelectedStockCode "" s in
  let s := setTakeProfitPrice "" s in
  let s := setTakeProfitPct "" s in
  let s := setStopLossPrice "" s in
  setStopLossPct "" s.

(** [request.field = parseFloat(input)] when the input is not empty *)
Definition field_of (input : string) : option number :=
  if Str.truthy input then Some (parseFloat input) else None.

Definition handleSaveStopLoss (s : state) : prog state :=
  if negb (Str.truthy (selectedStockCode s)) then Ret s
  else
    let request :=
      SetStopLossRequest.mk (selectedStockCode s)
        (field_of (takeProfitPrice s)) (field_of (takeProfitPct s))
        (field_of (stopLossPrice s)) (field_of (stopLossPct s)) in
    let all_empty :=
      negb (Str.truthy (takeProfitPrice s)) && negb (Str.truthy (takeProfitPct s))
      && negb (Str.truthy (stopLossPrice s)) && negb (Str.truthy (stopLossPct s)) in
    let code := selectedStockCode s in
    let s := setSavingStopLoss true s in
    let catch (e : object) (s : state) : state :=
      showMessage error (error_text e "保存失败")
        (consoleError "Failed to save stop loss:" s) in
    let finally (s : state) : prog state := Ret (setSavingStopLoss false s) in
    if all_empty
    then
      Await (deleteStopLoss code) (fun response =>
        bind
          match response with
          | Resolved _ =>
              bind (loadData (showMessage success (VStr "已删除止盈止损设置") s))
                   (fun s => Ret (closeStopLossModal s))
          | Rejected e => Ret (catch e s)
          end
          finally)
    else
      Await (setStopLoss request) (fun response =>
        bind
          match response with
          | Resolved _ =>
              bind (loadData (showMessage success (VStr "止盈止损设置已保存") s))
                   (fun s => Ret (closeStopLossModal s))
          | Rejected e => Ret (catch e s)
          end
          finally).

(** What [formatNumber], [formatPercent] and [getProfitClass] accept:
    [number | string | null | undefined]. *)
Inductive NumLike : Type :=
| NLNull
| NLUndefined
| NLString (s : string)
| NLNumber (n : number).

(** [Number.prototype.toFixed], left open like [parseFloat]. *)
Variable toFixed : number -> nat -> string.

(** [typeof num === 'string' ? parseFloat(num) : num], past the test for
    [null] and [undefined]. *)
Definition numeric_value (num : NumLike) : option number :=
  match num with
  | NLNull | NLUndefined => None
  | NLString s => Some (parseFloat s)
  | NLNumber n => Some n
  end.

Definition formatNumber (num : NumLike) (decimals : option nat) : string :=
  match numeric_value num with
  | None => "-"
  | Some value =>
      if isNaN value then "-" else toFixed value (with_default 2%nat decimals)
  end.

Definition formatPercent (num : NumLike) : string :=
  match numeric_value num with
  | None => "-"
  | Some value =>
      if isNaN value then "-"
      else
        let sign := if ge_zero value then "+" else "" in
        String.append sign (String.append (toFixed value 2%nat) "%")
  end.

Definition getProfitClass (num : NumLike) : string :=
  match numeric_value num with
  | None => "text-muted"
  | Some value =>
      if isNaN value then "text-muted"
      else if ge_zero value then "text-emerald-400" else "text-red-400"
  end.



End Handlers.

End TradingPage.

(** ** Statements about the page *)

Module Page.

Import tradingApi TradingPage.

(** The buttons that mutate: buy, sell, and save in the stop-loss modal
    (which saves or deletes). *)
Inductive action : Type := Buy | Sell | SaveStopLoss.

Definition order_handler (toUpperCase : string -> string)
  (ToPropertyKey : value -> outcome string) (side : OrderType)
  : state -> prog state :=
  match side with
  | buy => handleBuy toUpperCase ToPropertyKey
  | sell => handleSell toUpperCase ToPropertyKey
  end.

Definition handle (toUpperCase : string -> string)
  (parseFloat : string -> number) (ToPropertyKey : value -> outcome string)
  (a : action) : state -> prog state :=
  match a with
  | Buy => handleBuy toUpperCase ToPropertyKey
  | Sell => handleSell toUpperCase ToPropertyKey
  | SaveStopLoss => handleSaveStopLoss parseFloat ToPropertyKey
  end.

Definition is_mutating (c : call) : bool :=
  match c with
  | placeOrder _ | setStopLoss _ | deleteStopLoss _ => true
  | _ => false
  end.

(** Seven reads, one of each read operation of the client. *)
Definition seven_reads (cs : list call) : Prop :=
  length cs = 7%nat
  /\ In getAccount cs /\ In getPositions cs
  /\ (exists limit, In (getOrders limit) cs)
  /\ (exists stockCode, In (getStopLoss stockCode) cs)
  /\ In getAllStopLoss cs
  /\ (exists days, In (getAccountHistory days) cs)
  /\ In getPerformanceMetrics cs.

(** Every mutating call of a run is followed by the batch load. *)
Definition reloads_after_every_mutation (tr : list event) : Prop :=
  forall pre c post,
    tr = pre ++ Called c :: post -> is_mutating c = true ->
    In (CalledAll loadData_calls) post.

(** The mutating call of an action went through: it resolved and, for an
    order, with the status [filled]. *)
Definition went_through (a : action) (r : outcome value) : Prop :=
  match r with
  | Rejected _ => False
  | Resolved result =>
      match a with
      | SaveStopLoss => True
      | Buy | Sell => get_prop result "status" = Resolved (VStr "filled")
      end
  end.

(** The four inputs of the stop-loss modal are empty. *)
Definition all_empty (s : state) : Prop :=
  takeProfitPrice s = "" /\ takeProfitPct s = ""
  /\ stopLossPrice s = "" /\ stopLossPct s = "".

(** The order form cannot be submitted: no stock code once trimmed, no
    quantity, or a quantity that parses to [NaN] or to at most zero. *)
Definition invalid_order_input (s : state) : Prop :=
  Str.trim (stockCode s) = "" \/ quantity s = ""
  \/ parseInt (quantity s) = NaN \/ le_zero (parseInt (quantity s)) = true.

(** The request of an order, from the form. *)
Definition order_request (toUpperCase : string -> string) (side : OrderType)
  (s : state) : PlaceOrderRequest.t :=
  PlaceOrderRequest.mk (toUpperCase (Str.trim (stockCode s))) side
    (parseInt (quantity s)) None.

(** The call the save handler of the modal makes for a selected stock:
    a delete when the four inputs are empty, a set otherwise. *)
Definition save_call (parseFloat : string -> number) (s : state) : call :=
  if negb (Str.truthy (takeProfitPrice s)) && negb (Str.truthy (takeProfitPct s))
     && negb (Str.truthy (stopLossPrice s)) && negb (Str.truthy (stopLossPct s))
  then deleteStopLoss (selectedStockCode s)
  else setStopLoss
         (SetStopLossRequest.mk (selectedStockCode s)
            (field_of parseFloat (takeProfitPrice s))
            (field_of parseFloat (takeProfitPct s))
            (field_of parseFloat (stopLossPrice s))
            (field_of parseFloat (stopLossPct s))).

(** At least one of the four optional fields of the request is set. *)
Definition some_field_set (r : SetStopLossRequest.t) : Prop :=
  SetStopLossRequest.takeProfitPrice r <> None
  \/ SetStopLossRequest.takeProfitPct r <> None
  \/ SetStopLossRequest.stopLossPrice r <> None
  \/ SetStopLossRequest.stopLossPct r <> None.

End Page.

(** ** Sample worlds *)

Module Sample.

Import tradingApi TradingPage.

(** No network: every request is rejected. *)
Definition offline : transport :=
  fun _ _ => Rejected [("message", VStr "Network Error")].

(** A backend with an empty account that answers every order with the
    given status. *)
Definition backend (status : string) : transport :=
  fun _ req =>
    match Http.verb req with
    | Http.GET =>
        Resolved (VObj [("account", VNull); ("positions", VArr []);
                        ("orders", VArr []); ("stop_losses", VArr []);
                        ("histories", VArr []); ("metrics", VNull);
                        ("total", VNum (Int 0))])
    | Http.POST =>
        Resolved (VObj [("order_id", VNum (Int 1)); ("status", VStr status);
                        ("success", VBool true); ("message", VStr "ok");
                        ("stop_loss", VNull)])
    | Http.DELETE =>
        Resolved (VObj [("success", VBool true); ("message", VStr "ok")])
    end.

(** The same backend with the positions endpoint down. *)
Definition positions_down : transport :=
  fun n req =>
    if String.eqb (Http.url req) "/api/v1/trading/positions"
    then Rejected [("message", VStr "Request failed with status code 500")]
    else backend "filled" n req.

(** The account the backend [positions_down] would still deliver. *)
Definition loaded : state :=
  setAccount (VObj [("totalBalance", VNum (Int 100000))]) initial.

(** Stand-ins for the built-ins the handlers are open in, for the sample
    runs only: an upper-casing that is right on ASCII text, a [parseFloat]
    that reads the integral part, a [toString] that is never reached, and
    a key conversion that is right on [undefined], [null], booleans and
    strings and gives up on the rest, which these backends never send as a
    stock code. *)
Fixpoint toUpperCase (s : string) : string :=
  match s with
  | EmptyString => EmptyString
  | String c r => String (Str.upper_char c) (toUpperCase r)
  end.

Definition parseFloat (s : string) : number := parseInt s.


Definition ToPropertyKey (v : value) : outcome string :=
  match v with
  | VUndefined => Resolved "undefined"
  | VNull => Resolved "null"
  | VBool true => Resolved "true"
  | VBool false => Resolved "false"
  | VStr k => Resolved k
  | _ => Rejected TypeError
  end.

(** The order form filled in for ten shares of AAPL. *)
Definition order_form : state :=
  setQuantity "10" (setStockCode " aapl " initial).

(** The order form filled in for AAPL with a quantity of 310 digits:
    ["1" + "0".repeat(309)]. *)
Definition overflow_form : state :=
  setQuantity (String.append "1" (Str.repeat "0" 309))
    (setStockCode "AAPL" initial).

(** The stop-loss modal opened on AAPL, with the given stop-loss price. *)
Definition modal (price : string) : state :=
  setStopLossPrice price (setSelectedStockCode "AAPL" (setShowStopLossModal true initial)).

End Sample.

(** ** Further statements about the page *)

Module View.

Import tradingApi TradingPage Page.

(** A value a property cannot be read from. *)
Definition nullish (v : value) : bool :=
  match v with VUndefined | VNull => true | _ => false end.

(** The key [loadData] files a stop-loss entry under; [None] when reading
    [stockCode] from the entry, or converting it to a key, throws. *)
Definition stopLoss_key (ToPropertyKey : value -> outcome string) (sl : value)
  : option string :=
  match get_prop sl "stockCode" with
  | Resolved code =>
      match property_key ToPropertyKey code with
      | Resolved k => Some k
      | Rejected _ => None
      end
  | Rejected _ => None
  end.

Definition filed_under (ToPropertyKey : value -> outcome string) (k : string)
  (sl : value) : bool :=
  match stopLoss_key ToPropertyKey sl with
  | Some k' => String.eqb k k'
  | None => false
  end.

(** Stop-loss data [loadData] cannot re-key: not an array, or an array
    with a [null] or [undefined] entry. *)
Definition unusable_stopLossData (v : value) : Prop :=
  match v with
  | VArr items => Exists (fun sl => nullish sl = true) items
  | _ => True
  end.

(** The fields of the order form and of the stop-loss modal, which no load
    writes. *)
Definition same_inputs (s s' : state) : Prop :=
  stockCode s' = stockCode s /\ quantity s' = quantity s
  /\ loading s' = loading s /\ savingStopLoss s' = savingStopLoss s
  /\ showStopLossModal s' = showStopLossModal s
  /\ selectedStockCode s' = selectedStockCode s
  /\ takeProfitPrice s' = takeProfitPrice s /\ takeProfitPct s' = takeProfitPct s
  /\ stopLossPrice s' = stopLossPrice s /\ stopLossPct s' = stopLossPct s.

(** The state of the stop-loss modal. *)
Definition same_modal (s s' : state) : Prop :=
  showStopLossModal s' = showStopLossModal s
  /\ selectedStockCode s' = selectedStockCode s
  /\ takeProfitPrice s' = takeProfitPrice s /\ takeProfitPct s' = takeProfitPct s
  /\ stopLossPrice s' = stopLossPrice s /\ stopLossPct s' = stopLossPct s.

(** The modal is closed and its inputs are empty. *)
Definition modal_closed (s : state) : Prop :=
  showStopLossModal s = false /\ selectedStockCode s = ""
  /\ takeProfitPrice s = "" /\ takeProfitPct s = ""
  /\ stopLossPrice s = "" /\ stopLossPct s = "".

(** The shapes a run of a handler can have: nothing awaited, one mutating
    call, or one mutating call and then the batch load. *)
Definition handler_trace (tr : list event) : Prop :=
  tr = []
  \/ exists c, is_mutating c = true
               /\ (tr = [Called c] \/ tr = [Called c; CalledAll loadData_calls]).

(** The order came back filled. *)
Definition order_filled (r : outcome value) : Prop :=
  match r with
  | Resolved result => get_prop result "status" = Resolved (VStr "filled")
  | Rejected _ => False
  end.


(** There is nothing to format: [null], [undefined] or not a number. *)
Definition nothing_to_show (parseFloat : string -> number) (num : NumLike) : Prop :=
  match numeric_value parseFloat num with
  | None => True
  | Some value => isNaN value = true
  end.

(** The entry of a [setStopLoss] body an input of the modal gives. *)
Definition expected_field (parseFloat : string -> number) (input : string)
  : option value :=
  if Str.truthy input then Some (VNum (parseFloat input)) else None.

(** The formatted text starts with a plus sign. *)
Definition starts_with_plus (s : string) : bool :=
  match s with String "+" _ => true | _ => false end.

End View.

(** A backend whose stop-loss list endpoint answers without the
    [stop_losses] key. *)
Definition Sample_no_stop_losses : transport :=
  fun n req =>
    if String.eqb (Http.url req) "/api/v1/trading/stop-loss"
    then Resolved (VObj [("total", VNum (Int 0))])
    else Sample.backend "filled" n req.

(** A backend that holds two stop-loss rules for AAPL and one for MSFT. *)
Definition Sample_rules : list value :=
  [VObj [("stockCode", VStr "AAPL"); ("stopLossPrice", VNum (Int 90))];
   VObj [("stockCode", VStr "MSFT"); ("stopLossPrice", VNull)];
   VObj [("stockCode", VStr "AAPL"); ("stopLossPrice", VNum (Int 95))]].

(** A backend with an account and three stop-loss rules on the wire. *)
Definition Sample_with_rules : transport :=
  fun _ req =>
    match Http.verb req with
    | Http.GET =>
        Resolved (VObj [("account", VObj [("total_balance", VNum (Int 100000))]);
                        ("positions", VArr [VObj [("stock_code", VStr "AAPL")]]);
                        ("orders", VArr []);
                        ("stop_losses",
                         VArr [VObj [("stock_code", VStr "AAPL");
                                     ("stop_loss_price", VNum (Int 90))];
                               VObj [("stock_code", VStr "MSFT");
                                     ("stop_loss_price", VNull)];
                               VObj [("stock_code", VStr "AAPL");
                                     ("stop_loss_price", VNum (Int 95))]]);
                        ("histories", VArr [VObj [("record_date", VStr "2026-01-05")]]);
                        ("metrics", VObj [("total_trades", VNum (Int 3))])])
    | _ => Resolved VNull
    end.

(** * Properties *)

(** ** Worked inputs *)

Example parseInt_samples :
  parseInt "12abc" = Int 12 /\ parseInt "  -7" = Int (-7)
  /\ parseInt "1e3" = Int 1 /\ parseInt "abc" = NaN /\ parseInt "  " = NaN.
Proof. repeat split. Qed.

(** Beyond 53 bits the integer read is rounded to a double, ties to even;
    from 309 digits on it is [Infinity]. *)
Example parseInt_rounds :
  parseInt "9007199254740993" = Int 9007199254740992
  /\ parseInt "9007199254740995" = Int 9007199254740996
  /\ parseInt (String.append "1" (Str.repeat "0" 308))
     = Int 100000000000000001097906362944045541740492309677311846336810682903157585404911491537163328978494688899061249669721172515611590283743140088328307009198146046031271664502933027185697489699588559043338384466165001178426897626212945177628091195786707458122783970171784415105291802893207873272974885715430223118336
  /\ parseInt (String.append "1" (Str.repeat "0" 309)) = Infinity false
  /\ parseInt (String.append "-1" (Str.repeat "0" 309)) = Infinity true.
Proof. repeat split; vm_compute; reflexivity. Qed.

Example trim_samples :
  Str.trim "  a b  " = "a b" /\ Str.trim "   " = ""
  /\ Str.trim "　 AAPL﻿ " = "AAPL"
  /\ Sample.toUpperCase (Str.trim " aapl ") = "AAPL".
Proof. repeat split. Qed.

Example snakeToCamel_samples :
  Mapper.snakeToCamel "stop_loss_pct" = "stopLossPct"
  /\ Mapper.snakeToCamel "total" = "total"
  /\ Mapper.snakeToCamel "stopLossPct" = "stopLossPct".
Proof. repeat split. Qed.

(** Keys are rewritten at every depth; string values are not. *)
Example toCamelCase_sample :
  Mapper.toCamelCase
    (VObj [("stop_losses",
            VArr [VObj [("stock_code", VStr "a_b"); ("is_active", VBool true)]]);
           ("total", VNum (Int 1))])
  = VObj [("stopLosses",
           VArr [VObj [("stockCode", VStr "a_b"); ("isActive", VBool true)]]);
          ("total", VNum (Int 1))].
Proof. reflexivity. Qed.

(** A rule filed under [__proto__] becomes the prototype of the map and
    adds no own property; the rules around it are filed as usual. *)
Example forEach_stopLoss_proto :
  TradingPage.forEach_stopLoss Sample.ToPropertyKey
    [VObj [("stockCode", VStr "AAPL")];
     VObj [("stockCode", VStr "__proto__"); ("MSFT", VNull)];
     VObj [("stockCode", VStr "MSFT")]] []
  = Resolved [("AAPL", VObj [("stockCode", VStr "AAPL")]);
              ("MSFT", VObj [("stockCode", VStr "MSFT")])].
Proof. reflexivity. Qed.

(** ** Objects *)

Section ObjectFacts.

Lemma set_keys_fresh (o : object) (k : string) (v : value) :
  ~ In k (Obj.keys o) -> Obj.set o k v = o ++ [(k, v)].
Proof.
  induction o as [|[k' v'] o IH]; simpl; intros Hk; [reflexivity|].
  destruct (String.eqb_spec k k') as [->|_].
  - exfalso. apply Hk. now left.
  - rewrite IH; [reflexivity|]. intros Hin. apply Hk. now right.
Qed.

Lemma set_keys (o : object) (k : string) (v : value) :
  Obj.keys (Obj.set o k v) =
  if in_dec string_dec k (Obj.keys o) then Obj.keys o else Obj.keys o ++ [k].
Proof.
  induction o as [|[k' v'] o IH]; simpl; [reflexivity|].
  destruct (String.eqb_spec k k') as [->|Hne]; simpl.
  - destruct (string_dec k' k') as [E|F]; [reflexivity|now elim F].
  - rewrite IH. destruct (string_dec k' k) as [E|F]; [now elim Hne|].
    destruct (in_dec string_dec k (Obj.keys o)); reflexivity.
Qed.

Lemma set_NoDup (o : object) (k : string) (v : value) :
  NoDup (Obj.keys o) -> NoDup (Obj.keys (Obj.set o k v)).
Proof.
  intros Hnd. rewrite set_keys.
  destruct (in_dec string_dec k (Obj.keys o)) as [Hin|Hk]; [assumption|].
  apply NoDup_app; [assumption|repeat constructor; intros []|].
  intros x Hx [E|[]]. subst x. exact (Hk Hx).
Qed.

Lemma set_Forall (Q : string * value -> Prop) (o : object) k v :
  Forall Q o -> Q (k, v) -> Forall Q (Obj.set o k v).
Proof.
  intros Ho Hkv. induction Ho as [|[k' v'] o Hx Ho IH]; simpl.
  - repeat constructor. exact Hkv.
  - destruct (String.eqb_spec k k') as [<-|_]; constructor; assumption.
Qed.

Lemma assign_NoDup (es : list (string * value)) (acc : object) :
  NoDup (Obj.keys acc) -> NoDup (Obj.keys (Obj.assign acc es)).
Proof.
  revert acc. induction es as [|[k v] es IH]; intros acc Hacc; simpl.
  - exact Hacc.
  - apply IH, set_NoDup, Hacc.
Qed.

Lemma assign_Forall (Q : string * value -> Prop) (es : list (string * value)) :
  forall acc, Forall Q acc -> Forall Q es -> Forall Q (Obj.assign acc es).
Proof.
  induction es as [|[k v] es IH]; intros acc Hacc Hes; simpl.
  - exact Hacc.
  - inversion Hes; subst. apply IH; [apply set_Forall|]; assumption.
Qed.

(** Assigning entries with distinct, new keys appends them in order. *)
Lemma assign_fresh (es : list (string * value)) :
  forall acc, NoDup (Obj.keys (acc ++ es)) -> Obj.assign acc es = acc ++ es.
Proof.
  induction es as [|[k v] es IH]; intros acc Hnd; simpl.
  - now rewrite app_nil_r.
  - assert (Hk : ~ In k (Obj.keys acc)).
    { unfold Obj.keys in *. rewrite map_app in Hnd. simpl in Hnd.
      apply NoDup_remove_2 in Hnd. intros Hin. apply Hnd, in_or_app. now left. }
    rewrite (set_keys_fresh _ _ _ Hk), IH.
    + now rewrite <- app_assoc.
    + now rewrite <- app_assoc.
Qed.

Lemma of_entries_NoDup (o : object) :
  NoDup (Obj.keys o) -> Obj.of_entries o = o.
Proof.
  intros Hnd. unfold Obj.of_entries. now rewrite assign_fresh.
Qed.

End ObjectFacts.

(** ** Key conversion *)

Section KeyFacts.

Import Mapper.

Lemma upper_char_not_underscore (c : ascii) :
  Ascii.eqb c "_" = false -> Ascii.eqb (Str.upper_char c) "_" = false.
Proof.
  destruct c as [[] [] [] [] [] [] [] []]; vm_compute; intros H; congruence.
Qed.

Lemma capitalize_free (w : string) :
  underscore_free w = true -> underscore_free (capitalize w) = true.
Proof.
  destruct w as [|c r]; simpl; [reflexivity|].
  rewrite !andb_true_iff, !negb_true_iff. intros [Hc Hr].
  split; [apply upper_char_not_underscore|]; assumption.
Qed.

Lemma append_free (a b : string) :
  underscore_free a = true -> underscore_free b = true ->
  underscore_free (String.append a b) = true.
Proof.
  induction a as [|c a IH]; simpl; [auto|].
  rewrite !andb_true_iff. intros [Hc Ha] Hb. split; auto.
Qed.

Lemma words_free (s : string) :
  Forall (fun w => underscore_free w = true) (words s).
Proof.
  induction s as [|c r IH]; simpl.
  - repeat constructor.
  - destruct (Ascii.eqb c "_") eqn:Hc.
    + constructor; [reflexivity|assumption].
    + destruct (words r) as [|w ws]; [repeat constructor; simpl; now rewrite Hc|].
      inversion IH; subst. constructor; [|assumption].
      simpl. rewrite Hc. assumption.
Qed.

Lemma concat_capitalize_free (ws : list string) :
  Forall (fun w => underscore_free w = true) ws ->
  underscore_free (String.concat EmptyString (map capitalize ws)) = true.
Proof.
  induction 1 as [|w ws Hw Hws IH]; simpl; [reflexivity|].
  destruct (map capitalize ws) as [|w' ws'] eqn:E.
  - now apply capitalize_free.
  - apply append_free; [now apply capitalize_free|]. exact IH.
Qed.

Lemma snakeToCamel_free (k : string) :
  underscore_free (snakeToCamel k) = true.
Proof.
  unfold snakeToCamel. pose proof (words_free k) as H.
  destruct (words k) as [|w ws]; [reflexivity|].
  inversion H; subst.
  apply append_free; [assumption|now apply concat_capitalize_free].
Qed.

Lemma words_of_free (s : string) :
  underscore_free s = true -> words s = [s].
Proof.
  induction s as [|c r IH]; simpl; [reflexivity|].
  rewrite andb_true_iff, negb_true_iff. intros [Hc Hr].
  now rewrite Hc, (IH Hr).
Qed.

Lemma append_empty (s : string) : String.append s EmptyString = s.
Proof. induction s; simpl; congruence. Qed.

(** A key without underscores is unchanged. *)
Lemma snakeToCamel_fixed (k : string) :
  underscore_free k = true -> snakeToCamel k = k.
Proof.
  intros H. unfold snakeToCamel. rewrite (words_of_free _ H). simpl.
  apply append_empty.
Qed.

Lemma snakeToCamel_idempotent (k : string) :
  snakeToCamel (snakeToCamel k) = snakeToCamel k.
Proof. apply snakeToCamel_fixed, snakeToCamel_free. Qed.

End KeyFacts.

(** ** The Data Mapper *)

Section MapperFacts.

Import Mapper.

Lemma toCamelCase_object (props : list (string * value)) :
  toCamelCase (VObj props) = VObj (Obj.of_entries (map map_entry props)).
Proof. reflexivity. Qed.

Lemma map_fixed {A : Type} (f : A -> A) (l : list A) :
  Forall (fun x => f x = x) l -> map f l = l.
Proof. induction 1; simpl; congruence. Qed.

(** The entries of a mapped object are fixed by a second mapping, when
    the values of the object are. *)
Lemma mapped_entries_fixed (props : list (string * value)) :
  Forall (fun kv => toCamelCase (toCamelCase (snd kv)) = toCamelCase (snd kv)) props ->
  Forall (fun kv => map_entry kv = kv) (Obj.of_entries (map map_entry props)).
Proof.
  intros IH. apply assign_Forall; [constructor|].
  apply Forall_map. eapply Forall_impl; [|exact IH].
  intros [k v] Hv. unfold map_entry; simpl in *.
  now rewrite snakeToCamel_idempotent, Hv.
Qed.

(** C6: for every JSON value, snake_case-keyed or not, mapping it with
    [toCamelCase] twice gives the same value as mapping it once. *)
Theorem toCamelCase_idempotent (v : value) :
  Mapper.toCamelCase (Mapper.toCamelCase v) = Mapper.toCamelCase v.
Proof.
  induction v as [| | b | n | s | items IH | props IH] using value_nested_ind;
    try reflexivity.
  - simpl. f_equal. rewrite map_map. apply map_ext_Forall. exact IH.
  - rewrite toCamelCase_object.
    set (o := Obj.of_entries (map map_entry props)).
    rewrite toCamelCase_object. f_equal.
    rewrite (map_fixed map_entry o (mapped_entries_fixed props IH)).
    apply of_entries_NoDup. apply assign_NoDup. constructor.
Qed.

End MapperFacts.

(** ** The Trading Client *)

Section ClientFacts.

Import tradingApi.

(** C1: the body [setStopLoss] posts maps [stock_code] to the request's
    [stockCode]; it holds [take_profit_price], [take_profit_pct],
    [stop_loss_price] and [stop_loss_pct] exactly when the camelCase field
    of the request is defined, with that field's value; it holds no other
    key. *)
Theorem setStopLoss_body (request : SetStopLossRequest.t) :
  exists body,
    Http.data (request_of (setStopLoss request)) = Some (VObj body)
    /\ Obj.lookup "stock_code" body
       = Some (VStr (SetStopLossRequest.stockCode request))
    /\ Obj.lookup "take_profit_price" body
       = option_map VNum (SetStopLossRequest.takeProfitPrice request)
    /\ Obj.lookup "take_profit_pct" body
       = option_map VNum (SetStopLossRequest.takeProfitPct request)
    /\ Obj.lookup "stop_loss_price" body
       = option_map VNum (SetStopLossRequest.stopLossPrice request)
    /\ Obj.lookup "stop_loss_pct" body
       = option_map VNum (SetStopLossRequest.stopLossPct request)
    /\ (forall k, In k (Obj.keys body) -> In k setStopLoss_keys)
    /\ NoDup (Obj.keys body).
Proof.
  exists (setStopLoss_requestData request).
  destruct request as [code [a|] [b|] [c|] [d|]]; cbn;
    repeat split; try reflexivity;
    try (intros k Hk; repeat (destruct Hk as [<-|Hk]; [simpl; tauto|]); destruct Hk);
    repeat constructor; simpl; intuition discriminate.
Qed.

(** The body of the specification's example: only [stock_code] and
    [stop_loss_price] are sent. *)
Example setStopLoss_AAPL :
  Http.data (request_of
     (setStopLoss (SetStopLossRequest.mk "AAPL" None None (Some (Int 90)) None)))
  = Some (VObj [("stock_code", VStr "AAPL"); ("stop_loss_price", VNum (Int 90))]).
Proof. reflexivity. Qed.

(** C2: the body [placeOrder] posts is [{stock_code, order_type, quantity}]
    from the request's [stockCode], [orderType] and [quantity], followed by
    a [price] key exactly when the request's [price] is defined; without a
    price the body has no [price] key. *)
Theorem placeOrder_body (request : PlaceOrderRequest.t) :
  let base :=
    [("stock_code", VStr (PlaceOrderRequest.stockCode request));
     ("order_type", VStr (OrderType_string (PlaceOrderRequest.orderType request)));
     ("quantity", VNum (PlaceOrderRequest.quantity request))] in
  exists body,
    Http.data (request_of (placeOrder request)) = Some (VObj body)
    /\ body = match PlaceOrderRequest.price request with
              | Some price => base ++ [("price", VNum price)]
              | None => base
              end
    /\ Obj.lookup "price" body = option_map VNum (PlaceOrderRequest.price request)
    /\ (In "price" (Obj.keys body) <-> PlaceOrderRequest.price request <> None).
Proof.
  exists (placeOrder_requestData request).
  destruct request as [code side qty [p|]]; cbn; repeat split;
    try discriminate; try tauto.
  intros H. repeat (destruct H as [H|H]; [discriminate|]). destruct H.
Qed.

(** The body of the specification's example. *)
Example placeOrder_600519 :
  Http.data (request_of
     (placeOrder (PlaceOrderRequest.mk "600519" buy (Int 100) None)))
  = Some (VObj [("stock_code", VStr "600519"); ("order_type", VStr "buy");
                ("quantity", VNum (Int 100))]).
Proof. reflexivity. Qed.

(** C7: [getOrders] called without an argument issues its request with the
    query parameter [limit] set to 50, and no other parameter. *)
Theorem getOrders_default_limit :
  request_of (getOrders None)
  = Http.mkRequest Http.GET "/api/v1/trading/orders" [("limit", VNum (Int 50))] None.
Proof. reflexivity. Qed.

(** C8: for every stock code, when the backend answers [getStopLoss] with
    the envelope [{stop_loss: null}], [getStopLoss] resolves with [null];
    a failed fetch makes it reject instead. *)
Theorem getStopLoss_null (stockCode : string) :
  settle (getStopLoss stockCode) (Resolved (VObj [("stop_loss", VNull)]))
  = Resolved VNull
  /\ forall e, settle (getStopLoss stockCode) (Rejected e) = Rejected e.
Proof. split; reflexivity. Qed.

End ClientFacts.

(** ** Runs *)

Section RunFacts.

Variable t : transport.

Lemma run_bind {A B : Type} (p : prog A) (f : A -> prog B) :
  forall n,
    run t n (bind p f) =
    let '(a, tr) := run t n p in
    let '(b, tr') := run t (n + length tr) (f a) in
    (b, tr ++ tr').
Proof.
  induction p as [a | c k IH | cs k IH]; intros n; simpl.
  - rewrite Nat.add_0_r. now destruct (run t n (f a)).
  - rewrite IH. destruct (run t (S n) (k _)) as [a tr]; simpl.
    rewrite <- plus_n_Sm. now destruct (run t _ (f a)).
  - rewrite IH. destruct (run t (S n) (k _)) as [a tr]; simpl.
    rewrite <- plus_n_Sm. now destruct (run t _ (f a)).
Qed.

Lemma run_bind_Ret {A B : Type} (p : prog A) (g : A -> B) (n : nat) :
  run t n (bind p (fun a => Ret (g a))) =
  (g (fst (run t n p)), snd (run t n p)).
Proof.
  rewrite run_bind. destruct (run t n p) as [a tr]; simpl.
  now rewrite app_nil_r.
Qed.

Lemma promise_all_rejected (ps : list (outcome value)) (e : object) :
  In (Rejected e) ps -> exists e', promise_all ps = Rejected e'.
Proof.
  induction ps as [|[x|e0] ps IH]; simpl; intros Hin.
  - destruct Hin.
  - destruct Hin as [Hd|Hin]; [discriminate|].
    destruct (IH Hin) as [e' ->]. now exists e'.
  - now exists e0.
Qed.

End RunFacts.

(** ** The batch load *)

Section LoadFacts.

Import tradingApi TradingPage Page.

Variable ToPropertyKey : value -> outcome string.
Variable t : transport.

Lemma run_loadData (n : nat) (s : state) :
  run t n (loadData ToPropertyKey s) =
  (loadData_settled ToPropertyKey (promise_all (map (answer t n) loadData_calls)) s,
   [CalledAll loadData_calls]).
Proof. reflexivity. Qed.

(** C3, as the code has it: on mount the page awaits one [Promise.all] of
    six reads, issued together: [getAccount], [getPositions], [getOrders]
    without a limit, [getAllStopLoss], [getAccountHistory(30)] and
    [getPerformanceMetrics]; [getStopLoss] is not among them. *)
Theorem onMount_six_reads (n : nat) (s : state) :
  snd (run t n (onMount ToPropertyKey s)) =
    [CalledAll [getAccount; getPositions; getOrders None; getAllStopLoss;
                getAccountHistory (Some (Int 30)); getPerformanceMetrics]]
  /\ forall stockCode, ~ In (getStopLoss stockCode) loadData_calls.
Proof.
  split; [reflexivity|].
  intros code H. unfold loadData_calls in H. simpl in H.
  repeat (destruct H as [H|H]; [discriminate|]). exact H.
Qed.

(** C4: when one of the reads of the batch rejects, [Promise.all] rejects
    and the load commits nothing: [account], [positions], [orders],
    [stopLosses], [accountHistory] and [performanceMetrics] keep their
    values, and the failure message is shown. *)
Theorem loadData_all_or_nothing (n : nat) (s : state) (c : call) (e : object) :
  In c loadData_calls ->
  answer t n c = Rejected e ->
  (exists e', promise_all (map (answer t n) loadData_calls) = Rejected e')
  /\ let s' := fst (run t n (loadData ToPropertyKey s)) in
     account s' = account s
     /\ positions s' = positions s
     /\ orders s' = orders s
     /\ stopLosses s' = stopLosses s
     /\ accountHistory s' = accountHistory s
     /\ performanceMetrics s' = performanceMetrics s
     /\ message s' = Some (mkMessage error (VStr "加载数据失败")).
Proof.
  intros Hc He.
  assert (Hall : exists e', promise_all (map (answer t n) loadData_calls) = Rejected e').
  { apply promise_all_rejected with (e := e). rewrite <- He. now apply in_map. }
  split; [exact Hall|].
  destruct Hall as [e' Hall]. rewrite run_loadData. cbn [fst].
  rewrite Hall. cbn. repeat split; reflexivity.
Qed.

End LoadFacts.

(** C3 as stated fails: the batch a mounting page awaits is not seven
    reads with a [getStopLoss] among them. *)
Lemma onMount_not_seven_reads :
  ~ exists cs,
      In (CalledAll cs)
         (snd (run Sample.offline 0
                 (TradingPage.onMount Sample.ToPropertyKey TradingPage.initial)))
      /\ Page.seven_reads cs.
Proof.
  intros [cs [Hin Hseven]]. simpl in Hin.
  destruct Hin as [Heq|[]]. injection Heq as <-.
  destruct Hseven as [Hlen _]. discriminate Hlen.
Qed.

Lemma loadData_all_or_nothing_positions_down :
  (In tradingApi.getPositions TradingPage.loadData_calls
   /\ answer Sample.positions_down 0 tradingApi.getPositions
      = Rejected [("message", VStr "Request failed with status code 500")])
  /\ (exists e',
        promise_all (map (answer Sample.positions_down 0) TradingPage.loadData_calls)
        = Rejected e')
  /\ let s' := fst (run Sample.positions_down 0
                      (TradingPage.loadData Sample.ToPropertyKey Sample.loaded)) in
     TradingPage.account s' = TradingPage.account Sample.loaded
     /\ TradingPage.positions s' = TradingPage.positions Sample.loaded
     /\ TradingPage.orders s' = TradingPage.orders Sample.loaded
     /\ TradingPage.stopLosses s' = TradingPage.stopLosses Sample.loaded
     /\ TradingPage.accountHistory s' = TradingPage.accountHistory Sample.loaded
     /\ TradingPage.performanceMetrics s'
        = TradingPage.performanceMetrics Sample.loaded
     /\ TradingPage.message s'
        = Some (TradingPage.mkMessage TradingPage.error (VStr "加载数据失败")).
Proof.
  assert (Hin : In tradingApi.getPositions TradingPage.loadData_calls)
    by (simpl; tauto).
  assert (Hrej : answer Sample.positions_down 0 tradingApi.getPositions
                 = Rejected [("message", VStr "Request failed with status code 500")])
    by reflexivity.
  split; [split; [exact Hin|exact Hrej]|].
  exact (loadData_all_or_nothing Sample.ToPropertyKey Sample.positions_down 0
           Sample.loaded tradingApi.getPositions _ Hin Hrej).
Defined.

(** ** Parsing the order form *)

Section InputFacts.

Lemma truthy_false (s : string) : Str.truthy s = false <-> s = "".
Proof. destruct s; simpl; split; intros H; congruence. Qed.

Lemma truthy_true (s : string) : Str.truthy s = true <-> s <> "".
Proof. destruct s; simpl; split; intros H; congruence. Qed.

Lemma trimStart_strip (s : string) :
  Str.trimStart s
  = match Str.strip_ws s with Some r => Str.trimStart r | None => s end.
Proof.
  destruct s as [|c1 [|c2 [|c3 r3]]]; cbn [Str.trimStart Str.strip_ws];
    try reflexivity;
    destruct (Str.ws1 c1); try reflexivity;
    destruct (Str.ws2 c1 c2); try reflexivity;
    destruct (Str.ws3 c1 c2 c3); reflexivity.
Qed.

Lemma all_whitespace_strip (s : string) :
  Str.all_whitespace s
  = match s with
    | EmptyString => true
    | _ => match Str.strip_ws s with
           | Some r => Str.all_whitespace r
           | None => false
           end
    end.
Proof.
  destruct s as [|c1 [|c2 [|c3 r3]]]; cbn [Str.all_whitespace Str.strip_ws];
    try reflexivity;
    destruct (Str.ws1 c1); try reflexivity;
    destruct (Str.ws2 c1 c2); try reflexivity;
    destruct (Str.ws3 c1 c2 c3); reflexivity.
Qed.

Lemma strip_ws_shorter (s r : string) :
  Str.strip_ws s = Some r -> (String.length r < String.length s)%nat.
Proof.
  destruct s as [|c1 [|c2 [|c3 r3]]]; cbn [Str.strip_ws]; try discriminate;
    destruct (Str.ws1 c1); try (intros [= <-]; simpl; lia); try discriminate;
    destruct (Str.ws2 c1 c2); try (intros [= <-]; simpl; lia); try discriminate;
    destruct (Str.ws3 c1 c2 c3); try (intros [= <-]; simpl; lia); discriminate.
Qed.

(** What [trimStart] leaves does not start with white space. *)
Lemma trimStart_head (s : string) : Str.strip_ws (Str.trimStart s) = None.
Proof.
  remember (String.length s) as n eqn:Hn.
  revert s Hn. induction n as [n IH] using lt_wf_ind. intros s Hn.
  rewrite trimStart_strip. destruct (Str.strip_ws s) as [r|] eqn:E.
  - apply (IH (String.length r)); [|reflexivity].
    subst n. now apply strip_ws_shorter.
  - exact E.
Qed.

Lemma trimEnd_empty (s : string) :
  Str.trimEnd s = "" -> Str.all_whitespace s = true.
Proof.
  destruct s as [|c r]; [reflexivity|].
  cbn [Str.trimEnd]. destruct (Str.all_whitespace (String c r)); [reflexivity|].
  discriminate.
Qed.

Lemma trim_empty (s : string) : Str.trim s = "" -> Str.trimStart s = "".
Proof.
  unfold Str.trim. intros H. apply trimEnd_empty in H.
  rewrite all_whitespace_strip, trimStart_head in H.
  destruct (Str.trimStart s); [reflexivity|discriminate].
Qed.

(** A quantity of white space only parses to [NaN]. *)
Lemma parseInt_blank (s : string) : Str.trim s = "" -> parseInt s = NaN.
Proof.
  intros H. unfold parseInt. now rewrite (trim_empty s H).
Qed.

(** [parseInt] gives [NaN], an integer or an infinity. *)
Lemma parseInt_cases (s : string) :
  parseInt s = NaN \/ (exists z, parseInt s = Int z)
  \/ exists negative, parseInt s = Infinity negative.
Proof.
  unfold parseInt.
  destruct (match Str.trimStart s with
            | String "-" r => (true, r)
            | String "+" r => (false, r)
            | _ => (false, Str.trimStart s)
            end) as [neg body].
  destruct (Str.digits None body) as [v|]; [|now left].
  unfold round_to_double.
  destruct (Z.log2 v + 1 <=? 53)%Z; [right; left; eauto|].
  match goal with |- context [if ?c then Infinity false else _] => destruct c end;
    [right; right; eauto|right; left; eauto].
Qed.

End InputFacts.

(** ** The order handlers *)

Section OrderFacts.

Import tradingApi TradingPage Page.

Variable toUpperCase : string -> string.
Variable ToPropertyKey : value -> outcome string.
Variable t : transport.

(** The two guards of [handleBuy] and [handleSell] let through exactly the
    inputs that are not invalid. *)
Lemma guards_invalid (s : state) :
  (negb (Str.truthy (Str.trim (stockCode s)))
   || negb (Str.truthy (Str.trim (quantity s)))
   || (isNaN (parseInt (quantity s)) || le_zero (parseInt (quantity s)))) = true
  <-> invalid_order_input s.
Proof.
  unfold invalid_order_input.
  rewrite !orb_true_iff, !negb_true_iff, !truthy_false. split.
  - intros [[H|H]|[H|H]]; auto.
    + right; right; left. now apply parseInt_blank.
    + right; right; left. now destruct (parseInt (quantity s)).
  - intros [H|[H|[H|H]]]; auto.
    + left; right. now rewrite H.
    + right; left. now rewrite H.
Qed.

Lemma handleOrder_invalid side label fallback n s :
  invalid_order_input s ->
  exists text,
    run t n (handleOrder toUpperCase ToPropertyKey side label fallback s)
    = (showMessage error text s, []).
Proof.
  intros H. apply guards_invalid in H. unfold handleOrder.
  destruct (negb (Str.truthy (Str.trim (stockCode s)))
            || negb (Str.truthy (Str.trim (quantity s)))); [simpl; eauto|].
  simpl in H. rewrite H. simpl; eauto.
Qed.

Lemma handleOrder_valid side label fallback n s :
  ~ invalid_order_input s ->
  snd (run t n (handleOrder toUpperCase ToPropertyKey side label fallback s))
  = Called (placeOrder (order_request toUpperCase side s))
    :: match answer t n (placeOrder (order_request toUpperCase side s)) with
       | Resolved result =>
           match get_prop result "status" with
           | Resolved status =>
               if is_string status "filled" then [CalledAll loadData_calls] else []
           | Rejected _ => []
           end
       | Rejected _ => []
       end.
Proof.
  intros H. rewrite <- guards_invalid in H. apply not_true_is_false in H.
  unfold handleOrder.
  destruct (negb (Str.truthy (Str.trim (stockCode s)))
            || negb (Str.truthy (Str.trim (quantity s)))); [discriminate|].
  simpl in H. rewrite H. cbn [run].
  fold (order_request toUpperCase side s).
  set (r := answer t n (placeOrder (order_request toUpperCase side s))).
  rewrite run_bind_Ret. cbn [snd]. f_equal.
  destruct r as [result|e]; [|reflexivity].
  destruct (get_prop result "status") as [status|e]; [|reflexivity].
  destruct (is_string status "filled"); reflexivity.
Qed.

(** What the two guards decide, in the buy and in the sell handler: when
    the stock code is empty once trimmed, or the quantity is empty, or
    parses to [NaN] or to at most zero, [placeOrder] is not called and an
    error message is shown; otherwise [placeOrder] is called with the
    trimmed, upper-cased stock code and with the parsed quantity, which is
    a positive integer or, no guard testing for it, [Infinity]. *)
Lemma order_guard_decides (side : OrderType) (n : nat) (s : state) :
  let r := run t n (order_handler toUpperCase ToPropertyKey side s) in
  (invalid_order_input s ->
     snd r = []
     /\ exists text, message (fst r) = Some (mkMessage error text))
  /\ (~ invalid_order_input s ->
      Str.trim (stockCode s) <> ""
      /\ (parseInt (quantity s) = Infinity false
          \/ exists z, parseInt (quantity s) = Int z /\ (0 < z)%Z)
      /\ exists rest,
           snd r = Called (placeOrder
                             (PlaceOrderRequest.mk
                                (toUpperCase (Str.trim (stockCode s)))
                                side (parseInt (quantity s)) None)) :: rest).
Proof.
  set (label := match side with buy => "Buy failed:" | sell => "Sell failed:" end).
  set (fallback := match side with buy => "买入失败" | sell => "卖出失败" end).
  assert (Hh : order_handler toUpperCase ToPropertyKey side
               = handleOrder toUpperCase ToPropertyKey side label fallback)
    by now destruct side.
  cbv zeta. rewrite Hh. split; intros H.
  - destruct (handleOrder_invalid side label fallback n s H) as [text ->].
    split; [reflexivity|]. now exists text.
  - rewrite (handleOrder_valid side label fallback n s H).
    unfold invalid_order_input in H. split; [tauto|]. split.
    + destruct (parseInt_cases (quantity s)) as [Hnan|[[z Hz]|[[|] Hinf]]].
      * tauto.
      * right. exists z. split; [exact Hz|].
        rewrite Hz in H. simpl in H.
        destruct (Z.leb_spec z 0); [tauto|assumption].
      * rewrite Hinf in H. simpl in H. tauto.
      * now left.
    + eexists. reflexivity.
Qed.

(** C10 fails on the code.  A quantity of 310 digits parses to
    [Infinity], which is neither [NaN] nor at most zero: the input passes
    both guards and [placeOrder] is called, from the buy as from the sell
    handler, with the quantity [Infinity], which is no positive integer;
    the body posted holds it under [quantity]. *)
Theorem order_guard_overflow (side : OrderType) (n : nat) :
  parseInt (quantity Sample.overflow_form) = Infinity false
  /\ ~ invalid_order_input Sample.overflow_form
  /\ exists rest,
       snd (run t n (order_handler toUpperCase ToPropertyKey side
                       Sample.overflow_form))
       = Called (placeOrder
                   (PlaceOrderRequest.mk (toUpperCase "AAPL") side
                      (Infinity false) None)) :: rest
       /\ Http.data (request_of
                       (placeOrder
                          (PlaceOrderRequest.mk (toUpperCase "AAPL") side
                             (Infinity false) None)))
          = Some (VObj [("stock_code", VStr (toUpperCase "AAPL"));
                        ("order_type", VStr (OrderType_string side));
                        ("quantity", VNum (Infinity false))]).
Proof.
  assert (Hq : parseInt (quantity Sample.overflow_form) = Infinity false)
    by (vm_compute; reflexivity).
  assert (Hv : ~ invalid_order_input Sample.overflow_form).
  { unfold invalid_order_input. rewrite Hq.
    intros [H|[H|[H|H]]]; vm_compute in H; discriminate H. }
  split; [exact Hq|]. split; [exact Hv|].
  destruct (order_guard_decides side n Sample.overflow_form) as [_ Hvalid].
  destruct (Hvalid Hv) as (_ & _ & rest & Hrest).
  exists rest. split; [|reflexivity].
  rewrite Hrest, Hq. reflexivity.
Qed.

End OrderFacts.

(** ** The stop-loss modal *)

Section StopLossFacts.

Import tradingApi TradingPage Page.

Variable parseFloat : string -> number.
Variable ToPropertyKey : value -> outcome string.
Variable t : transport.

Lemma handleSaveStopLoss_unselected n s :
  selectedStockCode s = "" ->
  run t n (handleSaveStopLoss parseFloat ToPropertyKey s) = (s, []).
Proof.
  intros H. unfold handleSaveStopLoss. now rewrite H.
Qed.

Lemma handleSaveStopLoss_selected n s :
  selectedStockCode s <> "" ->
  snd (run t n (handleSaveStopLoss parseFloat ToPropertyKey s))
  = Called (save_call parseFloat s)
    :: match answer t n (save_call parseFloat s) with
       | Resolved _ => [CalledAll loadData_calls]
       | Rejected _ => []
       end.
Proof.
  intros H. apply truthy_true in H.
  unfold handleSaveStopLoss, save_call. rewrite H. cbn [negb]. cbv zeta.
  destruct (negb (Str.truthy (takeProfitPrice s))
            && negb (Str.truthy (takeProfitPct s))
            && negb (Str.truthy (stopLossPrice s))
            && negb (Str.truthy (stopLossPct s)));
    cbn [run]; rewrite run_bind_Ret; cbn [snd]; f_equal;
    match goal with |- context [answer t n ?c] => destruct (answer t n c) end;
    try reflexivity;
    rewrite run_bind_Ret; reflexivity.
Qed.

Lemma save_call_all_empty s :
  all_empty s -> save_call parseFloat s = deleteStopLoss (selectedStockCode s).
Proof.
  intros (H1 & H2 & H3 & H4). unfold save_call.
  now rewrite H1, H2, H3, H4.
Qed.

Lemma save_call_set s r :
  save_call parseFloat s = setStopLoss r -> some_field_set r.
Proof.
  unfold save_call, some_field_set, field_of.
  destruct (Str.truthy (takeProfitPrice s)); cbn;
    [intros [= <-]; cbn; left; discriminate|].
  destruct (Str.truthy (takeProfitPct s)); cbn;
    [intros [= <-]; cbn; right; left; discriminate|].
  destruct (Str.truthy (stopLossPrice s)); cbn;
    [intros [= <-]; cbn; right; right; left; discriminate|].
  destruct (Str.truthy (stopLossPct s)); cbn;
    [intros [= <-]; cbn; right; right; right; discriminate|].
  discriminate.
Qed.

Lemma setStopLoss_in_trace n s r :
  In (Called (setStopLoss r))
     (snd (run t n (handleSaveStopLoss parseFloat ToPropertyKey s))) ->
  selectedStockCode s <> "" /\ save_call parseFloat s = setStopLoss r.
Proof.
  destruct (string_dec (selectedStockCode s) "") as [E|N].
  - rewrite (handleSaveStopLoss_unselected n s E). intros [].
  - rewrite (handleSaveStopLoss_selected n s N). intros [H|H].
    + split; [exact N|congruence].
    + destruct (answer t n (save_call parseFloat s)); simpl in H;
        [destruct H as [H|[]]; discriminate|destruct H].
Qed.

(** C9: when the save handler of the stop-loss modal is invoked on a
    selected stock with the four inputs of the modal empty, it calls
    [deleteStopLoss] for the selected stock code and does not call
    [setStopLoss]; and whatever the inputs, it never calls [setStopLoss]
    with none of the four optional fields set. *)
Theorem save_empty_deletes (n : nat) (s : state) :
  let tr := snd (run t n (handleSaveStopLoss parseFloat ToPropertyKey s)) in
  (selectedStockCode s <> "" -> all_empty s ->
     (exists rest, tr = Called (deleteStopLoss (selectedStockCode s)) :: rest)
     /\ forall r, ~ In (Called (setStopLoss r)) tr)
  /\ (forall r, In (Called (setStopLoss r)) tr -> some_field_set r).
Proof.
  cbv zeta. split.
  - intros Hsel Hempty. split.
    + rewrite (handleSaveStopLoss_selected n s Hsel).
      rewrite (save_call_all_empty s Hempty). eauto.
    + intros r Hin. apply setStopLoss_in_trace in Hin as [_ Hc].
      rewrite (save_call_all_empty s Hempty) in Hc. discriminate.
  - intros r Hin. apply setStopLoss_in_trace in Hin as [_ Hc].
    exact (save_call_set s r Hc).
Qed.

End StopLossFacts.

(** ** Reloading after a mutation *)

Section ReloadFacts.

Import tradingApi TradingPage Page.

Variable parseFloat : string -> number.
Variable toUpperCase : string -> string.
Variable ToPropertyKey : value -> outcome string.
Variable t : transport.

Lemma invalid_order_input_dec (s : state) :
  {invalid_order_input s} + {~ invalid_order_input s}.
Proof.
  destruct (negb (Str.truthy (Str.trim (stockCode s)))
            || negb (Str.truthy (Str.trim (quantity s)))
            || (isNaN (parseInt (quantity s)) || le_zero (parseInt (quantity s))))
    eqn:E.
  - left. now apply guards_invalid.
  - right. rewrite <- guards_invalid. congruence.
Qed.

Lemma is_string_true (v : value) (lit : string) :
  is_string v lit = true <-> v = VStr lit.
Proof.
  destruct v; simpl; try (split; [discriminate|intros [=]]).
  rewrite String.eqb_eq. split; [now intros ->|now intros [= ->]].
Qed.

Lemma order_reload side label fallback n s c rest :
  snd (run t n (handleOrder toUpperCase ToPropertyKey side label fallback s)) = Called c :: rest ->
  match answer t n c with
  | Resolved result =>
      (get_prop result "status" = Resolved (VStr "filled") ->
       rest = [CalledAll loadData_calls])
      /\ (get_prop result "status" <> Resolved (VStr "filled") -> rest = [])
  | Rejected _ => rest = []
  end.
Proof.
  destruct (invalid_order_input_dec s) as [Hi|Hv].
  - destruct (handleOrder_invalid toUpperCase ToPropertyKey t side label fallback n s Hi) as [text ->].
    discriminate.
  - rewrite (handleOrder_valid toUpperCase ToPropertyKey t side label fallback n s Hv).
    intros [= <- <-].
    destruct (answer t n (placeOrder (order_request toUpperCase side s))) as [result|e];
      [|reflexivity].
    destruct (get_prop result "status") as [status|e].
    + destruct (is_string status "filled") eqn:E.
      * split; [reflexivity|]. apply is_string_true in E. congruence.
      * split; [|reflexivity]. intros [= ->]. discriminate.
    + split; [discriminate|reflexivity].
Qed.

(** C5, as the code has it: after a buy or a sell whose [placeOrder]
    resolves with the status [filled], and after a save in the stop-loss
    modal whose [setStopLoss] or [deleteStopLoss] resolves, the handler
    awaits the batch load and nothing else; when the mutating call rejects
    or the order comes back with another status, nothing is reloaded. *)
Theorem reload_after_mutation (a : action) (n : nat) (s : state)
    (c : call) (rest : list event) :
  snd (run t n (handle toUpperCase parseFloat ToPropertyKey a s)) = Called c :: rest ->
  (went_through a (answer t n c) -> rest = [CalledAll loadData_calls])
  /\ (~ went_through a (answer t n c) -> rest = []).
Proof.
  intros Htr. destruct a; simpl in Htr.
  - apply order_reload in Htr. unfold went_through.
    destruct (answer t n c); [tauto|]. split; [intros []|trivial].
  - apply order_reload in Htr. unfold went_through.
    destruct (answer t n c); [tauto|]. split; [intros []|trivial].
  - destruct (string_dec (selectedStockCode s) "") as [E|N].
    + rewrite (handleSaveStopLoss_unselected parseFloat ToPropertyKey t n s E) in Htr.
      discriminate.
    + rewrite (handleSaveStopLoss_selected parseFloat ToPropertyKey t n s N) in Htr.
      injection Htr as <- <-. unfold went_through.
      destruct (answer t n (save_call parseFloat s)); split; tauto.
Qed.

End ReloadFacts.

(** *** Runs of the handlers on sample worlds *)

(** C5 as stated fails: an order that comes back [rejected] is a mutating
    call after which nothing is reloaded. *)
Lemma rejected_order_no_reload :
  ~ Page.reloads_after_every_mutation
      (snd (run (Sample.backend "rejected") 0
              (TradingPage.handleBuy Sample.toUpperCase Sample.ToPropertyKey Sample.order_form))).
Proof.
  intros H.
  specialize (H [] (tradingApi.placeOrder (Page.order_request Sample.toUpperCase buy Sample.order_form))
                [] eq_refl eq_refl).
  destruct H.
Qed.

Lemma reload_after_filled_order :
  let c := tradingApi.placeOrder (Page.order_request Sample.toUpperCase buy Sample.order_form) in
  snd (run (Sample.backend "filled") 0
         (Page.handle Sample.toUpperCase Sample.parseFloat Sample.ToPropertyKey Page.Buy Sample.order_form))
  = Called c :: [CalledAll TradingPage.loadData_calls]
  /\ Page.went_through Page.Buy (answer (Sample.backend "filled") 0 c)
  /\ [CalledAll TradingPage.loadData_calls] = [CalledAll TradingPage.loadData_calls].
Proof.
  cbv zeta.
  assert (Htr : snd (run (Sample.backend "filled") 0
                       (Page.handle Sample.toUpperCase Sample.parseFloat Sample.ToPropertyKey Page.Buy
                          Sample.order_form))
                = Called (tradingApi.placeOrder
                            (Page.order_request Sample.toUpperCase buy Sample.order_form))
                  :: [CalledAll TradingPage.loadData_calls])
    by reflexivity.
  assert (Hw : Page.went_through Page.Buy
                 (answer (Sample.backend "filled") 0
                    (tradingApi.placeOrder
                       (Page.order_request Sample.toUpperCase buy Sample.order_form))))
    by reflexivity.
  split; [exact Htr|]. split; [exact Hw|].
  exact (proj1 (reload_after_mutation Sample.parseFloat Sample.toUpperCase Sample.ToPropertyKey
                  (Sample.backend "filled") Page.Buy 0 Sample.order_form _ _ Htr)
           Hw).
Defined.

Lemma save_empty_deletes_AAPL :
  let tr := snd (run (Sample.backend "filled") 0
                   (TradingPage.handleSaveStopLoss Sample.parseFloat
                      Sample.ToPropertyKey (Sample.modal ""))) in
  (TradingPage.selectedStockCode (Sample.modal "") <> ""
   /\ Page.all_empty (Sample.modal ""))
  /\ (exists rest, tr = Called (tradingApi.deleteStopLoss "AAPL") :: rest)
  /\ forall r, ~ In (Called (tradingApi.setStopLoss r)) tr.
Proof.
  cbv zeta.
  assert (Hsel : TradingPage.selectedStockCode (Sample.modal "") <> "")
    by (simpl; discriminate).
  assert (Hempty : Page.all_empty (Sample.modal ""))
    by (repeat split).
  split; [split; [exact Hsel|exact Hempty]|].
  exact (proj1 (save_empty_deletes Sample.parseFloat Sample.ToPropertyKey
                  (Sample.backend "filled") 0 (Sample.modal ""))
           Hsel Hempty).
Defined.

(** * Further properties *)

(** ** Re-keying the stop-loss list *)

Section RekeyFacts.

Import tradingApi TradingPage View.

Variable ToPropertyKey : value -> outcome string.

Lemma lookup_set (o : object) (k k' : string) (v : value) :
  Obj.lookup k' (Obj.set o k v)
  = if String.eqb k' k then Some v else Obj.lookup k' o.
Proof.
  induction o as [|[k0 v0] o IH]; simpl.
  - reflexivity.
  - destruct (String.eqb_spec k k0) as [->|Hne]; simpl.
    + destruct (String.eqb k' k0); reflexivity.
    + rewrite IH. destruct (String.eqb_spec k' k0) as [->|_]; [|reflexivity].
      destruct (String.eqb_spec k0 k) as [E|_]; [now elim Hne|reflexivity].
Qed.

Lemma find_snoc {A : Type} (p : A -> bool) (l : list A) (x : A) :
  find p (l ++ [x])
  = match find p l with
    | Some y => Some y
    | None => if p x then Some x else None
    end.
Proof.
  induction l as [|y l IH]; simpl; [reflexivity|].
  destruct (p y); [reflexivity|exact IH].
Qed.

Lemma set_prototype_own (o : Plain.t) (v : value) :
  Plain.own (Plain.set_prototype o v) = Plain.own o.
Proof. now destruct v. Qed.

(** An assignment writes the own property of its key, and no other; one
    that goes to the accessor of [__proto__] writes none. *)
Lemma assign_lookup (o : Plain.t) (key k : string) (v : value) :
  k <> "__proto__" ->
  Obj.lookup k (Plain.own (Plain.assign o key v))
  = if String.eqb k key then Some v else Obj.lookup k (Plain.own o).
Proof.
  intros Hk. unfold Plain.assign.
  destruct (String.eqb_spec key "__proto__") as [->|Hkey]; cbn [andb].
  - destruct (String.eqb_spec k "__proto__") as [E|_]; [now elim Hk|].
    destruct (Plain.reaches_accessor o).
    + now rewrite set_prototype_own.
    + cbn [Plain.own]. rewrite lookup_set.
      destruct (String.eqb_spec k "__proto__") as [E|_]; [now elim Hk|reflexivity].
  - cbn [Plain.own]. apply lookup_set.
Qed.

Lemma assign_other (o : Plain.t) (key k : string) (v : value) :
  k <> key ->
  Obj.lookup k (Plain.own (Plain.assign o key v)) = Obj.lookup k (Plain.own o).
Proof.
  intros Hk. unfold Plain.assign.
  destruct (String.eqb key "__proto__" && Plain.reaches_accessor o).
  - now rewrite set_prototype_own.
  - cbn [Plain.own]. rewrite lookup_set.
    destruct (String.eqb_spec k key) as [E|_]; [now elim Hk|reflexivity].
Qed.

Lemma assign_NoDup_own (o : Plain.t) (key : string) (v : value) :
  NoDup (Obj.keys (Plain.own o)) ->
  NoDup (Obj.keys (Plain.own (Plain.assign o key v))).
Proof.
  intros H. unfold Plain.assign.
  destruct (String.eqb key "__proto__" && Plain.reaches_accessor o).
  - now rewrite set_prototype_own.
  - cbn [Plain.own]. now apply set_NoDup.
Qed.

Lemma forEach_assign_lookup (items : list value) :
  forall o m k,
    k <> "__proto__" ->
    forEach_assign ToPropertyKey items o = Resolved m ->
    Obj.lookup k (Plain.own m)
    = match find (filed_under ToPropertyKey k) (rev items) with
      | Some sl => Some sl
      | None => Obj.lookup k (Plain.own o)
      end.
Proof.
  induction items as [|sl items IH]; intros o m k Hk H; simpl in H.
  - injection H as <-. reflexivity.
  - simpl rev. rewrite find_snoc.
    unfold filed_under at 2, stopLoss_key.
    destruct (get_prop sl "stockCode") as [code|e]; [|discriminate].
    destruct (property_key ToPropertyKey code) as [key|e]; [|discriminate].
    rewrite (IH _ _ k Hk H), (assign_lookup _ _ _ _ Hk).
    destruct (find (filed_under ToPropertyKey k) (rev items)); [reflexivity|].
    destruct (String.eqb k key); reflexivity.
Qed.

Lemma forEach_assign_untouched (items : list value) :
  forall o m k,
    find (filed_under ToPropertyKey k) items = None ->
    forEach_assign ToPropertyKey items o = Resolved m ->
    Obj.lookup k (Plain.own m) = Obj.lookup k (Plain.own o).
Proof.
  induction items as [|sl items IH]; intros o m k Hk H; simpl in H.
  - now injection H as <-.
  - simpl in Hk. unfold filed_under at 1, stopLoss_key in Hk.
    destruct (get_prop sl "stockCode") as [code|e]; [|discriminate].
    destruct (property_key ToPropertyKey code) as [key|e]; [|discriminate].
    destruct (String.eqb_spec k key) as [E|N]; [discriminate|].
    rewrite (IH _ _ k Hk H). now apply assign_other.
Qed.

Lemma forEach_assign_NoDup (items : list value) :
  forall o m,
    NoDup (Obj.keys (Plain.own o)) ->
    forEach_assign ToPropertyKey items o = Resolved m ->
    NoDup (Obj.keys (Plain.own m)).
Proof.
  induction items as [|sl items IH]; intros o m Ho H; simpl in H.
  - now injection H as <-.
  - destruct (get_prop sl "stockCode") as [code|e]; [|discriminate].
    destruct (property_key ToPropertyKey code) as [key|e]; [|discriminate].
    eapply IH; [|exact H]. now apply assign_NoDup_own.
Qed.

Lemma forEach_stopLoss_assign (items : list value) (acc m : object) :
  forEach_stopLoss ToPropertyKey items acc = Resolved m ->
  exists pm,
    forEach_assign ToPropertyKey items (Plain.mk acc Plain.ObjectPrototype)
    = Resolved pm
    /\ Plain.own pm = m.
Proof.
  unfold forEach_stopLoss.
  destruct (forEach_assign ToPropertyKey items _) as [pm|e]; [|discriminate].
  intros [= <-]. now exists pm.
Qed.

(** X2: the own properties of the lookup map [loadData] builds from the
    stop-loss list.  Under every key but [__proto__] the map owns the last
    entry of the list filed under that key (a later rule for a stock
    replaces an earlier one) and nothing when no entry is; it owns no
    [__proto__] unless an entry is filed under it; and it owns no key
    twice. *)
Theorem stopLossMap_last_wins (items : list value) (m : object) :
  forEach_stopLoss ToPropertyKey items [] = Resolved m ->
  (forall k, k <> "__proto__" ->
     Obj.lookup k m = find (filed_under ToPropertyKey k) (rev items))
  /\ (find (filed_under ToPropertyKey "__proto__") items = None ->
      Obj.lookup "__proto__" m = None)
  /\ NoDup (Obj.keys m).
Proof.
  intros H. apply forEach_stopLoss_assign in H as (pm & H & <-).
  split; [|split].
  - intros k Hk. rewrite (forEach_assign_lookup items _ pm k Hk H).
    now destruct (find (filed_under ToPropertyKey k) (rev items)).
  - intros Hnone. now rewrite (forEach_assign_untouched items _ pm _ Hnone H).
  - apply (forEach_assign_NoDup items (Plain.mk [] Plain.ObjectPrototype) pm);
      [constructor|exact H].
Qed.

Lemma get_prop_rejected (v : value) (k : string) (e : object) :
  get_prop v k = Rejected e <-> nullish v = true /\ e = TypeError.
Proof.
  destruct v; simpl; split; intros H;
    try discriminate; try (destruct H; discriminate);
    try (injection H as <-; split; reflexivity); destruct H as [_ ->]; reflexivity.
Qed.

Lemma forEach_assign_throws (items : list value) :
  forall o,
    (Exists (fun sl => stopLoss_key ToPropertyKey sl = None) items
     <-> exists e, forEach_assign ToPropertyKey items o = Rejected e)
    /\ (Forall (fun sl => stopLoss_key ToPropertyKey sl <> None) items
        <-> exists m, forEach_assign ToPropertyKey items o = Resolved m).
Proof.
  induction items as [|sl items IH]; intros o.
  - split; split.
    + intros H. inversion H.
    + intros [e H]. discriminate.
    + intros _. now exists o.
    + constructor.
  - rewrite Exists_cons, Forall_cons_iff. cbn [forEach_assign].
    unfold stopLoss_key at 1 3.
    destruct (get_prop sl "stockCode") as [code|e].
    + destruct (property_key ToPropertyKey code) as [key|e].
      * destruct (IH (Plain.assign o key sl)) as [IH1 IH2].
        rewrite <- IH1, <- IH2. split; split.
        -- intros [H|H]; [discriminate|exact H].
        -- intros H. now right.
        -- intros [_ H]. exact H.
        -- intros H. split; [discriminate|exact H].
      * split; split.
        -- intros _. now exists e.
        -- intros _. now left.
        -- intros [H _]. now elim H.
        -- intros [m H]. discriminate.
    + split; split.
      * intros _. now exists e.
      * intros _. now left.
      * intros [H _]. now elim H.
      * intros [m H]. discriminate.
Qed.

(** X3: re-keying the stop-loss list throws exactly when some entry
    cannot be filed, and yields a map otherwise.  An entry cannot be filed
    when it is [null] or [undefined], or when its [stockCode] cannot be
    converted to a property key; an entry whose [stockCode] is a string is
    always filed, under that string. *)
Theorem forEach_stopLoss_throws (items : list value) (acc : object) :
  (Exists (fun sl => stopLoss_key ToPropertyKey sl = None) items
   <-> exists e, forEach_stopLoss ToPropertyKey items acc = Rejected e)
  /\ (Forall (fun sl => stopLoss_key ToPropertyKey sl <> None) items
      <-> exists m, forEach_stopLoss ToPropertyKey items acc = Resolved m)
  /\ (forall sl,
        stopLoss_key ToPropertyKey sl = None
        <-> nullish sl = true
            \/ exists code e,
                 get_prop sl "stockCode" = Resolved code
                 /\ property_key ToPropertyKey code = Rejected e)
  /\ (forall sl code,
        get_prop sl "stockCode" = Resolved (VStr code) ->
        stopLoss_key ToPropertyKey sl = Some code).
Proof.
  destruct (forEach_assign_throws items (Plain.mk acc Plain.ObjectPrototype))
    as [H1 H2].
  unfold forEach_stopLoss. split; [|split; [|split]].
  - rewrite H1. split; intros [e H].
    + exists e. now rewrite H.
    + destruct (forEach_assign ToPropertyKey items _) as [m|e']; [discriminate|].
      now exists e'.
  - rewrite H2. split; intros [m H].
    + eexists. now rewrite H.
    + destruct (forEach_assign ToPropertyKey items _) as [m'|e']; [|discriminate].
      now exists m'.
  - intros sl. unfold stopLoss_key.
    destruct (get_prop sl "stockCode") as [code|e] eqn:E.
    + destruct (property_key ToPropertyKey code) as [key|e] eqn:K; split.
      * discriminate.
      * intros [Hn|(code' & e & [= <-] & Hk)]; [|congruence].
        destruct sl; discriminate.
      * intros _. right. eauto.
      * reflexivity.
    + apply get_prop_rejected in E as [Hn _]. split; [now left|reflexivity].
  - intros sl code H. unfold stopLoss_key. now rewrite H.
Qed.

(** A list with a [null] or [undefined] entry is not re-keyed. *)
Lemma forEach_stopLoss_nullish (items : list value) (acc : object) :
  Exists (fun sl => nullish sl = true) items ->
  exists e, forEach_stopLoss ToPropertyKey items acc = Rejected e.
Proof.
  intros H. apply (proj1 (forEach_stopLoss_throws items acc)).
  apply Exists_exists in H as (sl & Hin & Hn). apply Exists_exists.
  exists sl. split; [exact Hin|].
  apply (proj1 (proj2 (proj2 (forEach_stopLoss_throws items acc)))). now left.
Qed.

End RekeyFacts.

Lemma stopLossMap_last_wins_rules :
  TradingPage.forEach_stopLoss Sample.ToPropertyKey Sample_rules []
  = Resolved [("AAPL", VObj [("stockCode", VStr "AAPL");
                             ("stopLossPrice", VNum (Int 95))]);
              ("MSFT", VObj [("stockCode", VStr "MSFT");
                             ("stopLossPrice", VNull)])]
  /\ (forall k, k <> "__proto__" ->
        Obj.lookup k [("AAPL", VObj [("stockCode", VStr "AAPL");
                                     ("stopLossPrice", VNum (Int 95))]);
                      ("MSFT", VObj [("stockCode", VStr "MSFT");
                                     ("stopLossPrice", VNull)])]
        = find (View.filed_under Sample.ToPropertyKey k) (rev Sample_rules))
  /\ (find (View.filed_under Sample.ToPropertyKey "__proto__") Sample_rules = None ->
      Obj.lookup "__proto__"
        [("AAPL", VObj [("stockCode", VStr "AAPL");
                        ("stopLossPrice", VNum (Int 95))]);
         ("MSFT", VObj [("stockCode", VStr "MSFT");
                        ("stopLossPrice", VNull)])] = None)
  /\ NoDup (Obj.keys [("AAPL", VObj [("stockCode", VStr "AAPL");
                                     ("stopLossPrice", VNum (Int 95))]);
                      ("MSFT", VObj [("stockCode", VStr "MSFT");
                                     ("stopLossPrice", VNull)])]).
Proof.
  assert (H : TradingPage.forEach_stopLoss Sample.ToPropertyKey Sample_rules []
              = Resolved [("AAPL", VObj [("stockCode", VStr "AAPL");
                                         ("stopLossPrice", VNum (Int 95))]);
                          ("MSFT", VObj [("stockCode", VStr "MSFT");
                                         ("stopLossPrice", VNull)])])
    by reflexivity.
  split; [exact H|].
  exact (stopLossMap_last_wins Sample.ToPropertyKey Sample_rules _ H).
Defined.

(** ** What a load commits *)

Section CommitFacts.

Import tradingApi TradingPage View.

Variable ToPropertyKey : value -> outcome string.
Variable t : transport.

Lemma loadData_six_answers (n : nat) (a p o sl h m : value) :
  answer t n getAccount = Resolved a ->
  answer t n getPositions = Resolved p ->
  answer t n (getOrders None) = Resolved o ->
  answer t n getAllStopLoss = Resolved sl ->
  answer t n (getAccountHistory (Some (Int 30))) = Resolved h ->
  answer t n getPerformanceMetrics = Resolved m ->
  promise_all (map (answer t n) loadData_calls) = Resolved [a; p; o; sl; h; m].
Proof.
  intros Ha Hp Ho Hsl Hh Hm. unfold loadData_calls. cbn [map promise_all].
  now rewrite Ha, Hp, Ho, Hsl, Hh, Hm.
Qed.

(** X4: when the six reads of a load resolve and the stop-loss list can
    be re-keyed, each result lands in its own state variable (the account
    in [account], the fourth result re-keyed in [stopLosses], the fifth in
    [accountHistory], ...), replacing what was there, and no message is
    shown or logged. *)
Theorem loadData_commits (n : nat) (s : state) (a p o h m : value)
    (items : list value) (stopLossMap : object) :
  answer t n getAccount = Resolved a ->
  answer t n getPositions = Resolved p ->
  answer t n (getOrders None) = Resolved o ->
  answer t n getAllStopLoss = Resolved (VArr items) ->
  answer t n (getAccountHistory (Some (Int 30))) = Resolved h ->
  answer t n getPerformanceMetrics = Resolved m ->
  forEach_stopLoss ToPropertyKey items [] = Resolved stopLossMap ->
  let s' := fst (run t n (loadData ToPropertyKey s)) in
  account s' = a /\ positions s' = p /\ orders s' = o
  /\ stopLosses s' = stopLossMap
  /\ accountHistory s' = h /\ performanceMetrics s' = m
  /\ message s' = message s /\ console s' = console s
  /\ timeouts s' = timeouts s.
Proof.
  intros Ha Hp Ho Hsl Hh Hm Hmap. cbv zeta.
  rewrite run_loadData. cbn [fst].
  rewrite (loadData_six_answers n _ _ _ _ _ _ Ha Hp Ho Hsl Hh Hm).
  unfold loadData_settled. cbn [nth]. rewrite Hmap.
  repeat split; reflexivity.
Qed.

(** X5: a load is not all-or-nothing once the reads have resolved: when
    the stop-loss result is not an array, or holds a [null] or [undefined]
    entry, the account, positions, orders, history and metrics of this
    load are committed all the same, [stopLosses] keeps its previous value,
    and the load-failure message is shown and logged. *)
Theorem loadData_partial_commit (n : nat) (s : state) (a p o sl h m : value) :
  answer t n getAccount = Resolved a ->
  answer t n getPositions = Resolved p ->
  answer t n (getOrders None) = Resolved o ->
  answer t n getAllStopLoss = Resolved sl ->
  answer t n (getAccountHistory (Some (Int 30))) = Resolved h ->
  answer t n getPerformanceMetrics = Resolved m ->
  unusable_stopLossData sl ->
  let s' := fst (run t n (loadData ToPropertyKey s)) in
  account s' = a /\ positions s' = p /\ orders s' = o
  /\ accountHistory s' = h /\ performanceMetrics s' = m
  /\ stopLosses s' = stopLosses s
  /\ message s' = Some (mkMessage error (VStr "加载数据失败"))
  /\ console s' = console s ++ ["Failed to load data:"].
Proof.
  intros Ha Hp Ho Hsl Hh Hm Hbad. cbv zeta.
  rewrite run_loadData. cbn [fst].
  rewrite (loadData_six_answers n _ _ _ _ _ _ Ha Hp Ho Hsl Hh Hm).
  unfold loadData_settled. cbn [nth].
  destruct sl as [| | b | x | x | items | props];
    try (repeat split; reflexivity).
  simpl in Hbad.
  destruct (forEach_stopLoss_nullish ToPropertyKey items [] Hbad) as [e' He'].
  rewrite He'. repeat split; reflexivity.
Qed.

Lemma loadData_settled_inputs (all : outcome (list value)) (s : state) :
  same_inputs s (loadData_settled ToPropertyKey all s).
Proof.
  unfold loadData_settled.
  destruct all as [results|e]; [|repeat split; reflexivity].
  destruct (nth 3 results VUndefined) as [| | b | x | x | items | props];
    try (repeat split; reflexivity).
  destruct (forEach_stopLoss ToPropertyKey items []); repeat split; reflexivity.
Qed.

(** X6: whatever the backend answers, a load leaves the order form and
    the stop-loss modal alone: [stockCode], [quantity], [loading],
    [savingStopLoss], [showStopLossModal], [selectedStockCode] and the four
    inputs of the modal are as before. *)
Theorem loadData_keeps_inputs (n : nat) (s : state) :
  same_inputs s (fst (run t n (loadData ToPropertyKey s))).
Proof.
  rewrite run_loadData. apply loadData_settled_inputs.
Qed.

End CommitFacts.

(** On the wire a load is six GET requests without a body: the
    orders with [limit=50], the account history with [days=30], the other
    four without a query parameter. *)
Theorem loadData_requests :
  map tradingApi.request_of TradingPage.loadData_calls =
  [Http.mkRequest Http.GET "/api/v1/trading/account" [] None;
   Http.mkRequest Http.GET "/api/v1/trading/positions" [] None;
   Http.mkRequest Http.GET "/api/v1/trading/orders" [("limit", VNum (Int 50))] None;
   Http.mkRequest Http.GET "/api/v1/trading/stop-loss" [] None;
   Http.mkRequest Http.GET "/api/v1/trading/account-history"
     [("days", VNum (Int 30))] None;
   Http.mkRequest Http.GET "/api/v1/trading/performance-metrics" [] None].
Proof. reflexivity. Qed.

Lemma loadData_commits_with_rules :
  let s' := fst (run Sample_with_rules 0
                   (TradingPage.loadData Sample.ToPropertyKey Sample.order_form)) in
  TradingPage.account s' = VObj [("totalBalance", VNum (Int 100000))]
  /\ TradingPage.positions s' = VArr [VObj [("stockCode", VStr "AAPL")]]
  /\ TradingPage.orders s' = VArr []
  /\ TradingPage.stopLosses s'
     = [("AAPL", VObj [("stockCode", VStr "AAPL"); ("stopLossPrice", VNum (Int 95))]);
        ("MSFT", VObj [("stockCode", VStr "MSFT"); ("stopLossPrice", VNull)])]
  /\ TradingPage.accountHistory s' = VArr [VObj [("recordDate", VStr "2026-01-05")]]
  /\ TradingPage.performanceMetrics s' = VObj [("totalTrades", VNum (Int 3))]
  /\ TradingPage.message s' = TradingPage.message Sample.order_form
  /\ TradingPage.console s' = TradingPage.console Sample.order_form
  /\ TradingPage.timeouts s' = TradingPage.timeouts Sample.order_form.
Proof.
  apply (loadData_commits Sample.ToPropertyKey Sample_with_rules 0 Sample.order_form
           _ _ _ _ _
           [VObj [("stockCode", VStr "AAPL"); ("stopLossPrice", VNum (Int 90))];
            VObj [("stockCode", VStr "MSFT"); ("stopLossPrice", VNull)];
            VObj [("stockCode", VStr "AAPL"); ("stopLossPrice", VNum (Int 95))]]);
    reflexivity.
Defined.

Lemma loadData_partial_commit_no_stop_losses :
  let s' := fst (run Sample_no_stop_losses 0
                   (TradingPage.loadData Sample.ToPropertyKey Sample.loaded)) in
  View.unusable_stopLossData VUndefined
  /\ TradingPage.account s' = VNull
  /\ TradingPage.positions s' = VArr []
  /\ TradingPage.orders s' = VArr []
  /\ TradingPage.accountHistory s' = VArr []
  /\ TradingPage.performanceMetrics s' = VNull
  /\ TradingPage.stopLosses s' = TradingPage.stopLosses Sample.loaded
  /\ TradingPage.message s'
     = Some (TradingPage.mkMessage TradingPage.error (VStr "加载数据失败"))
  /\ TradingPage.console s'
     = TradingPage.console Sample.loaded ++ ["Failed to load data:"].
Proof.
  cbv zeta. split; [exact I|].
  apply (loadData_partial_commit Sample.ToPropertyKey Sample_no_stop_losses 0
           Sample.loaded _ _ _ VUndefined); try reflexivity; exact I.
Defined.

(** ** Outcomes of an order *)

Section OrderOutcomeFacts.

Import tradingApi TradingPage Page View.

Variable toUpperCase : string -> string.
Variable ToPropertyKey : value -> outcome string.
Variable t : transport.

(** The state an order handler ends in, once its input is let through. *)
Lemma handleOrder_valid_state side label fallback n s :
  ~ invalid_order_input s ->
  fst (run t n (handleOrder toUpperCase ToPropertyKey side label fallback s))
  = setLoading false
      match answer t n (placeOrder (order_request toUpperCase side s)) with
      | Resolved result =>
          match get_prop result "status" with
          | Resolved status =>
              if is_string status "filled"
              then
                loadData_settled ToPropertyKey
                  (promise_all (map (answer t (S n)) loadData_calls))
                  (setQuantity ""
                     (setStockCode ""
                        (showMessage success (get_opt result "message")
                           (setLoading true s))))
              else showMessage error (get_opt result "message") (setLoading true s)
          | Rejected e =>
              showMessage error (error_text e fallback)
                (consoleError label (setLoading true s))
          end
      | Rejected e =>
          showMessage error (error_text e fallback)
            (consoleError label (setLoading true s))
      end.
Proof.
  intros H. rewrite <- guards_invalid in H. apply not_true_is_false in H.
  unfold handleOrder.
  destruct (negb (Str.truthy (Str.trim (stockCode s)))
            || negb (Str.truthy (Str.trim (quantity s)))); [discriminate|].
  simpl in H. rewrite H. cbn [run].
  fold (order_request toUpperCase side s).
  set (r := answer t n (placeOrder (order_request toUpperCase side s))).
  rewrite run_bind_Ret. cbn [fst]. f_equal.
  destruct r as [result|e]; [|reflexivity].
  destruct (get_prop result "status") as [status|e]; [|reflexivity].
  destruct (is_string status "filled"); reflexivity.
Qed.

Lemma order_handler_unfold (side : OrderType) :
  order_handler toUpperCase ToPropertyKey side
  = handleOrder toUpperCase ToPropertyKey side
      (match side with buy => "Buy failed:" | sell => "Sell failed:" end)
      (match side with buy => "买入失败" | sell => "卖出失败" end).
Proof. now destruct side. Qed.

Lemma order_filled_status (result status : value) :
  get_prop result "status" = Resolved status ->
  (is_string status "filled" = true <-> order_filled (Resolved result)).
Proof.
  intros H. unfold order_filled. rewrite H, is_string_true.
  split; [now intros ->|now intros [= ->]].
Qed.

(** X7: an order handler that called [placeOrder] always ends with
    [loading] switched off, whether the order was filled, refused or
    failed, and whether the reload that follows it worked; one that
    refused its input leaves [loading], the form and the loaded data as
    they were. *)
Theorem order_loading_reset (side : OrderType) (n : nat) (s : state) :
  let s' := fst (run t n (order_handler toUpperCase ToPropertyKey side s)) in
  (~ invalid_order_input s -> loading s' = false)
  /\ (invalid_order_input s ->
      loading s' = loading s /\ stockCode s' = stockCode s
      /\ quantity s' = quantity s
      /\ account s' = account s /\ positions s' = positions s
      /\ orders s' = orders s /\ stopLosses s' = stopLosses s).
Proof.
  cbv zeta. rewrite order_handler_unfold. split; intros H.
  - rewrite (handleOrder_valid_state _ _ _ n s H). reflexivity.
  - edestruct (handleOrder_invalid toUpperCase ToPropertyKey t side) as [text Ht]; [exact H|].
    rewrite Ht. repeat split; reflexivity.
Qed.

(** X8: the order form is emptied exactly when the order comes back
    filled: then [stockCode] and [quantity] are cleared, also when the
    reload fails; after a refused or failed order they keep what the user
    typed. *)
Theorem order_form_cleared (side : OrderType) (n : nat) (s : state) :
  ~ invalid_order_input s ->
  let s' := fst (run t n (order_handler toUpperCase ToPropertyKey side s)) in
  let r := answer t n (placeOrder (order_request toUpperCase side s)) in
  (order_filled r -> stockCode s' = "" /\ quantity s' = "")
  /\ (~ order_filled r -> stockCode s' = stockCode s /\ quantity s' = quantity s).
Proof.
  intros H. cbv zeta. rewrite order_handler_unfold.
  rewrite (handleOrder_valid_state _ _ _ n s H).
  destruct (answer t n (placeOrder (order_request toUpperCase side s))) as [result|e].
  - destruct (get_prop result "status") as [status|e] eqn:Hst.
    + pose proof (order_filled_status result status Hst) as Hf.
      destruct (is_string status "filled").
      * split; [intros _|intros N; elim N; now apply Hf].
        destruct (loadData_settled_inputs ToPropertyKey
                    (promise_all (map (answer t (S n)) loadData_calls))
                    (setQuantity ""
                       (setStockCode ""
                          (showMessage success (get_opt result "message")
                             (setLoading true s))))) as (Hc & Hq & _).
        split; [exact Hc|exact Hq].
      * split; [intros F; apply Hf in F; discriminate|intros _].
        split; reflexivity.
    + split; [|intros _; split; reflexivity].
      unfold order_filled. rewrite Hst. discriminate.
  - split; [intros []|intros _; split; reflexivity].
Qed.

End OrderOutcomeFacts.

Lemma order_form_cleared_filled :
  let s' := fst (run (Sample.backend "filled") 0
                   (Page.order_handler Sample.toUpperCase Sample.ToPropertyKey buy Sample.order_form)) in
  let r := answer (Sample.backend "filled") 0
             (tradingApi.placeOrder (Page.order_request Sample.toUpperCase buy Sample.order_form)) in
  ~ Page.invalid_order_input Sample.order_form
  /\ View.order_filled r
  /\ TradingPage.stockCode s' = "" /\ TradingPage.quantity s' = "".
Proof.
  cbv zeta.
  assert (H : ~ Page.invalid_order_input Sample.order_form)
    by (intros [H|[H|[H|H]]]; vm_compute in H; discriminate H).
  assert (F : View.order_filled
                (answer (Sample.backend "filled") 0
                   (tradingApi.placeOrder (Page.order_request Sample.toUpperCase buy Sample.order_form))))
    by reflexivity.
  split; [exact H|]. split; [exact F|].
  exact (proj1 (order_form_cleared Sample.toUpperCase Sample.ToPropertyKey (Sample.backend "filled") buy 0
                  Sample.order_form H) F).
Defined.

(** ** Messages of a failed order *)

Section OrderMessageFacts.

Import tradingApi TradingPage Page View.

Variable toUpperCase : string -> string.
Variable ToPropertyKey : value -> outcome string.
Variable t : transport.

(** X9: what the user is told after an order that was not filled.  When
    [placeOrder] rejects, the error text of the rejection (or the fallback
    of the handler) is shown and the failure is logged; when the backend
    answers with another status, its own [message] is shown as an error,
    nothing is logged and the loaded data stay; when the answer has no
    body to read a status from, the fallback is shown. *)
Theorem order_failure_message (side : OrderType) (n : nat) (s : state) :
  ~ invalid_order_input s ->
  let s' := fst (run t n (order_handler toUpperCase ToPropertyKey side s)) in
  let r := answer t n (placeOrder (order_request toUpperCase side s)) in
  let label := match side with buy => "Buy failed:" | sell => "Sell failed:" end in
  let fallback := match side with buy => "买入失败" | sell => "卖出失败" end in
  (forall e, r = Rejected e ->
     message s' = Some (mkMessage error (error_text e fallback))
     /\ console s' = console s ++ [label])
  /\ (forall result status,
        r = Resolved result -> get_prop result "status" = Resolved status ->
        status <> VStr "filled" ->
        message s' = Some (mkMessage error (get_opt result "message"))
        /\ console s' = console s
        /\ account s' = account s /\ positions s' = positions s
        /\ orders s' = orders s /\ stopLosses s' = stopLosses s)
  /\ (forall result,
        r = Resolved result -> nullish result = true ->
        message s' = Some (mkMessage error (VStr fallback))
        /\ console s' = console s ++ [label]).
Proof.
  intros H. cbv zeta. rewrite order_handler_unfold.
  rewrite (handleOrder_valid_state toUpperCase ToPropertyKey t _ _ _ n s H).
  split; [|split].
  - intros e ->. split; reflexivity.
  - intros result status -> Hst Hne. rewrite Hst.
    destruct (is_string status "filled") eqn:E.
    + apply is_string_true in E. contradiction.
    + repeat split; reflexivity.
  - intros result -> Hn.
    destruct result; try discriminate Hn; split; reflexivity.
Qed.

End OrderMessageFacts.

Lemma order_failure_message_offline :
  let s' := fst (run Sample.offline 0
                   (Page.order_handler Sample.toUpperCase Sample.ToPropertyKey buy Sample.order_form)) in
  ~ Page.invalid_order_input Sample.order_form
  /\ answer Sample.offline 0
       (tradingApi.placeOrder (Page.order_request Sample.toUpperCase buy Sample.order_form))
     = Rejected [("message", VStr "Network Error")]
  /\ TradingPage.message s'
     = Some (TradingPage.mkMessage TradingPage.error (VStr "买入失败"))
  /\ TradingPage.console s'
     = TradingPage.console Sample.order_form ++ ["Buy failed:"].
Proof.
  cbv zeta.
  assert (H : ~ Page.invalid_order_input Sample.order_form)
    by (intros [H|[H|[H|H]]]; vm_compute in H; discriminate H).
  split; [exact H|]. split; [reflexivity|].
  exact (proj1 (order_failure_message Sample.toUpperCase Sample.ToPropertyKey Sample.offline buy 0
                  Sample.order_form H)
           [("message", VStr "Network Error")] eq_refl).
Defined.

(** ** What the handlers put on the wire *)

Section WireFacts.

Import tradingApi TradingPage Page View.

Variable parseFloat : string -> number.
Variable toUpperCase : string -> string.
Variable ToPropertyKey : value -> outcome string.
Variable t : transport.


(** X11: a run of a handler (buy, sell, or save in the stop-loss modal)
    awaits nothing at all, or one mutating call, or one mutating call
    followed by the batch load; it never makes a second mutating call and
    never reads before it has written. *)
Theorem handler_trace_shape (a : action) (n : nat) (s : state) :
  handler_trace (snd (run t n (handle toUpperCase parseFloat ToPropertyKey a s))).
Proof.
  assert (Horder : forall side label fallback,
             handler_trace
               (snd (run t n (handleOrder toUpperCase ToPropertyKey side label fallback s)))).
  { intros side label fallback.
    destruct (invalid_order_input_dec s) as [Hi|Hv].
    - destruct (handleOrder_invalid toUpperCase ToPropertyKey t side label fallback n s Hi)
        as [text ->]. now left.
    - rewrite (handleOrder_valid toUpperCase ToPropertyKey t side label fallback n s Hv).
      right. exists (placeOrder (order_request toUpperCase side s)). split; [reflexivity|].
      destruct (answer t n (placeOrder (order_request toUpperCase side s))) as [result|e];
        [|now left].
      destruct (get_prop result "status") as [status|e]; [|now left].
      destruct (is_string status "filled"); [now right|now left]. }
  destruct a; simpl.
  - apply Horder.
  - apply Horder.
  - destruct (string_dec (selectedStockCode s) "") as [E|N].
    + rewrite (handleSaveStopLoss_unselected parseFloat ToPropertyKey t n s E).
      now left.
    + rewrite (handleSaveStopLoss_selected parseFloat ToPropertyKey t n s N).
      right. exists (save_call parseFloat s). split.
      * unfold save_call.
        destruct (negb (Str.truthy (takeProfitPrice s))
                  && negb (Str.truthy (takeProfitPct s))
                  && negb (Str.truthy (stopLossPrice s))
                  && negb (Str.truthy (stopLossPct s))); reflexivity.
      * destruct (answer t n (save_call parseFloat s)); [now right|now left].
Qed.

(** X12: when the modal is saved with a stock selected and some input
    filled in, the body posted to [/api/v1/trading/stop-loss] names the
    selected stock and holds, for each of the four inputs, its key exactly
    when the input is not empty, with [parseFloat] of the input as value;
    an input left empty is not sent. *)
Theorem save_on_the_wire (n : nat) (s : state) :
  selectedStockCode s <> "" -> ~ all_empty s ->
  exists c rest body,
    snd (run t n (handleSaveStopLoss parseFloat ToPropertyKey s)) = Called c :: rest
    /\ Http.verb (request_of c) = Http.POST
    /\ Http.url (request_of c) = "/api/v1/trading/stop-loss"
    /\ Http.data (request_of c) = Some (VObj body)
    /\ Obj.lookup "stock_code" body = Some (VStr (selectedStockCode s))
    /\ Obj.lookup "take_profit_price" body = expected_field parseFloat (takeProfitPrice s)
    /\ Obj.lookup "take_profit_pct" body = expected_field parseFloat (takeProfitPct s)
    /\ Obj.lookup "stop_loss_price" body = expected_field parseFloat (stopLossPrice s)
    /\ Obj.lookup "stop_loss_pct" body = expected_field parseFloat (stopLossPct s).
Proof.
  intros Hsel Hne.
  rewrite (handleSaveStopLoss_selected parseFloat ToPropertyKey t n s Hsel).
  unfold save_call, all_empty in *.
  destruct (Str.truthy (takeProfitPrice s)) eqn:E1;
  destruct (Str.truthy (takeProfitPct s)) eqn:E2;
  destruct (Str.truthy (stopLossPrice s)) eqn:E3;
  destruct (Str.truthy (stopLossPct s)) eqn:E4;
    try (elim Hne; apply truthy_false in E1, E2, E3, E4; tauto);
    cbn [negb andb];
    eexists; eexists; eexists;
    (split; [reflexivity|]);
    unfold expected_field, field_of;
    cbn; rewrite ?E1, ?E2, ?E3, ?E4; cbn;
    repeat split; reflexivity.
Qed.

End WireFacts.


Lemma save_on_the_wire_AAPL :
  (TradingPage.selectedStockCode (Sample.modal "90") <> ""
   /\ ~ Page.all_empty (Sample.modal "90"))
  /\ exists c rest body,
       snd (run (Sample.backend "filled") 0
              (TradingPage.handleSaveStopLoss Sample.parseFloat Sample.ToPropertyKey
                 (Sample.modal "90")))
       = Called c :: rest
       /\ Http.verb (tradingApi.request_of c) = Http.POST
       /\ Http.url (tradingApi.request_of c) = "/api/v1/trading/stop-loss"
       /\ Http.data (tradingApi.request_of c) = Some (VObj body)
       /\ Obj.lookup "stock_code" body
          = Some (VStr (TradingPage.selectedStockCode (Sample.modal "90")))
       /\ Obj.lookup "take_profit_price" body
          = View.expected_field Sample.parseFloat
              (TradingPage.takeProfitPrice (Sample.modal "90"))
       /\ Obj.lookup "take_profit_pct" body
          = View.expected_field Sample.parseFloat
              (TradingPage.takeProfitPct (Sample.modal "90"))
       /\ Obj.lookup "stop_loss_price" body
          = View.expected_field Sample.parseFloat
              (TradingPage.stopLossPrice (Sample.modal "90"))
       /\ Obj.lookup "stop_loss_pct" body
          = View.expected_field Sample.parseFloat
              (TradingPage.stopLossPct (Sample.modal "90")).
Proof.
  assert (Hsel : TradingPage.selectedStockCode (Sample.modal "90") <> "")
    by (simpl; discriminate).
  assert (Hne : ~ Page.all_empty (Sample.modal "90"))
    by (intros (_ & _ & H & _); discriminate H).
  split; [split; [exact Hsel|exact Hne]|].
  exact (save_on_the_wire Sample.parseFloat Sample.ToPropertyKey
           (Sample.backend "filled") 0 (Sample.modal "90") Hsel Hne).
Defined.

(** ** The text of an error *)

Section ErrorTextFacts.

Import TradingPage.

Lemma or_else_truthy (a : value) (fallback : string) :
  fallback <> "" -> falsy (or_else a (VStr fallback)) = false.
Proof.
  intros H. unfold or_else. destruct (falsy a) eqn:E; [|exact E].
  destruct fallback; [now elim H|reflexivity].
Qed.

(** X13: the text shown for a caught error is the handler's fallback
    whenever the error has no [response] (a network failure, a
    [TypeError]) or its [response] is [null]; in every case it is either
    the fallback or the non-empty [response.data.detail.message] of the
    error, so never an empty or missing text. *)
Theorem error_text_fallback (e : object) (fallback : string) :
  fallback <> "" ->
  (Obj.lookup "response" e = None \/ Obj.lookup "response" e = Some VNull ->
   error_text e fallback = VStr fallback)
  /\ falsy (error_text e fallback) = false
  /\ (error_text e fallback = VStr fallback
      \/ exists response,
           Obj.lookup "response" e = Some response
           /\ error_text e fallback
              = get_opt (get_opt (get_opt response "data") "detail") "message").
Proof.
  intros Hf. unfold error_text. repeat split.
  - intros [H|H]; rewrite H; reflexivity.
  - now apply or_else_truthy.
  - destruct (Obj.lookup "response" e) as [response|]; [|now left].
    unfold or_else.
    destruct (falsy (get_opt (get_opt (get_opt response "data") "detail") "message"));
      [now left|right; eauto].
Qed.

End ErrorTextFacts.

Lemma error_text_fallback_detail :
  "买入失败" <> ""
  /\ falsy (TradingPage.error_text
              [("response",
                VObj [("data", VObj [("detail", VObj [("message", VStr "资金不足")])])])]
              "买入失败") = false.
Proof.
  assert (H : "买入失败" <> "") by discriminate.
  split; [exact H|].
  exact (proj1 (proj2 (error_text_fallback
           [("response",
             VObj [("data", VObj [("detail", VObj [("message", VStr "资金不足")])])])]
           "买入失败" H))).
Defined.

(** ** Saving in the stop-loss modal *)

Section ModalFacts.

Import tradingApi TradingPage Page View.

Variable parseFloat : string -> number.
Variable ToString : value -> string.
Variable ToPropertyKey : value -> outcome string.
Variable t : transport.

Lemma handleSaveStopLoss_selected_state n s :
  selectedStockCode s <> "" ->
  exists text,
    fst (run t n (handleSaveStopLoss parseFloat ToPropertyKey s))
    = setSavingStopLoss false
        match answer t n (save_call parseFloat s) with
        | Resolved _ =>
            closeStopLossModal
              (loadData_settled ToPropertyKey
                 (promise_all (map (answer t (S n)) loadData_calls))
                 (showMessage success (VStr text) (setSavingStopLoss true s)))
        | Rejected e =>
            showMessage error (error_text e "保存失败")
              (consoleError "Failed to save stop loss:" (setSavingStopLoss true s))
        end.
Proof.
  intros H. apply truthy_true in H.
  unfold handleSaveStopLoss, save_call. rewrite H. cbn [negb]. cbv zeta.
  destruct (negb (Str.truthy (takeProfitPrice s))
            && negb (Str.truthy (takeProfitPct s))
            && negb (Str.truthy (stopLossPrice s))
            && negb (Str.truthy (stopLossPct s)));
    eexists; cbn [run]; rewrite run_bind_Ret; cbn [fst]; f_equal;
    match goal with |- context [answer t n ?c] => destruct (answer t n c) end;
    try reflexivity;
    rewrite run_bind_Ret; reflexivity.
Qed.

(** X14: a save in the modal for a selected stock always ends with
    [savingStopLoss] switched off.  When its call resolves the modal is
    closed and its inputs are cleared, even if the reload that follows
    fails; when its call rejects the modal stays open on the same stock
    with the inputs as typed, the error text is shown, and the loaded data
    stay. *)
Theorem save_modal_outcome (n : nat) (s : state) :
  selectedStockCode s <> "" ->
  let s' := fst (run t n (handleSaveStopLoss parseFloat ToPropertyKey s)) in
  let r := answer t n (save_call parseFloat s) in
  savingStopLoss s' = false
  /\ (forall x, r = Resolved x -> modal_closed s')
  /\ (forall e, r = Rejected e ->
        same_modal s s'
        /\ message s' = Some (mkMessage error (error_text e "保存失败"))
        /\ account s' = account s /\ positions s' = positions s
        /\ orders s' = orders s /\ stopLosses s' = stopLosses s).
Proof.
  intros Hsel. cbv zeta.
  destruct (handleSaveStopLoss_selected_state n s Hsel) as [text ->].
  split; [reflexivity|]. split.
  - intros x ->. repeat split; reflexivity.
  - intros e ->. repeat split; reflexivity.
Qed.





End ModalFacts.

Lemma save_modal_outcome_offline :
  let s := Sample.modal "90" in
  let s' := fst (run Sample.offline 0
                   (TradingPage.handleSaveStopLoss Sample.parseFloat
                      Sample.ToPropertyKey s)) in
  TradingPage.selectedStockCode s <> ""
  /\ answer Sample.offline 0 (Page.save_call Sample.parseFloat s)
     = Rejected [("message", VStr "Network Error")]
  /\ TradingPage.savingStopLoss s' = false
  /\ View.same_modal s s'
  /\ TradingPage.message s'
     = Some (TradingPage.mkMessage TradingPage.error (VStr "保存失败")).
Proof.
  cbv zeta.
  assert (Hsel : TradingPage.selectedStockCode (Sample.modal "90") <> "")
    by (simpl; discriminate).
  destruct (save_modal_outcome Sample.parseFloat Sample.ToPropertyKey Sample.offline 0
              (Sample.modal "90") Hsel) as (Hsaving & _ & Hrej).
  destruct (Hrej [("message", VStr "Network Error")] eq_refl) as (Hmodal & Hmsg & _).
  split; [exact Hsel|]. split; [reflexivity|]. split; [exact Hsaving|].
  split; [exact Hmodal|exact Hmsg].
Defined.


(** ** Formatting numbers *)

Section FormatFacts.

Import TradingPage View.

Variable parseFloat : string -> number.
Variable toFixed : number -> nat -> string.

Lemma append_percent_not_dash (a : string) : String.append a "%" <> "-".
Proof.
  destruct a as [|c [|c' a]]; simpl; discriminate.
Qed.

Lemma signed_not_dash (sign body : string) :
  String.append sign (String.append body "%") <> "-".
Proof.
  intros H. apply (append_percent_not_dash (String.append sign body)).
  rewrite <- H. clear H. induction sign as [|c sign IH]; simpl; congruence.
Qed.

(** X16: the three formatters agree on what cannot be shown.  For
    [null], [undefined], a [NaN] and a string [parseFloat] reads as [NaN],
    [formatNumber] and [formatPercent] give the dash and [getProfitClass]
    the muted class; for anything else [formatPercent] never gives the
    dash, [getProfitClass] never the muted class, and [formatNumber] is
    [toFixed] of the value, to two decimals unless told otherwise. *)
Theorem formatters_agree (num : NumLike) (decimals : option nat) :
  (nothing_to_show parseFloat num ->
     formatNumber parseFloat toFixed num decimals = "-"
     /\ formatPercent parseFloat toFixed num = "-"
     /\ getProfitClass parseFloat num = "text-muted")
  /\ (~ nothing_to_show parseFloat num ->
      formatPercent parseFloat toFixed num <> "-"
      /\ getProfitClass parseFloat num <> "text-muted"
      /\ exists value,
           numeric_value parseFloat num = Some value
           /\ formatNumber parseFloat toFixed num decimals
              = toFixed value (match decimals with Some d => d | None => 2%nat end)).
Proof.
  unfold nothing_to_show, formatNumber, formatPercent, getProfitClass.
  destruct (numeric_value parseFloat num) as [value|].
  - destruct (isNaN value) eqn:E; split; intros H;
      try (repeat split; reflexivity); try congruence.
    split; [apply signed_not_dash|].
    split; [destruct (ge_zero value); discriminate|].
    exists value. split; [reflexivity|]. now destruct decimals.
  - split; intros H; [repeat split; reflexivity|now elim H].
Qed.

(** X17: sign and colour go together: a value shown in the gain class
    [text-emerald-400] is formatted as a percentage with a leading plus
    sign, zero included, and a value shown in the loss class
    [text-red-400] as [toFixed] of the value followed by the percent sign
    with no sign added. *)
Theorem sign_matches_colour (num : NumLike) :
  (getProfitClass parseFloat num = "text-emerald-400" ->
     starts_with_plus (formatPercent parseFloat toFixed num) = true)
  /\ (getProfitClass parseFloat num = "text-red-400" ->
      exists value,
        numeric_value parseFloat num = Some value
        /\ ge_zero value = false
        /\ formatPercent parseFloat toFixed num
           = String.append (toFixed value 2%nat) "%")
  /\ getProfitClass parseFloat (NLNumber (Int 0)) = "text-emerald-400".
Proof.
  unfold getProfitClass, formatPercent.
  destruct (numeric_value parseFloat num) as [value|]; repeat split;
    try discriminate; try reflexivity.
  - destruct (isNaN value); [discriminate|].
    destruct (ge_zero value); [reflexivity|discriminate].
  - destruct (isNaN value); [discriminate|].
    destruct (ge_zero value) eqn:E; [discriminate|].
    intros _. exists value. split; [reflexivity|]. split; [exact E|reflexivity].
Qed.

End FormatFacts.

Lemma formatters_agree_samples :
  (View.nothing_to_show Sample.parseFloat (TradingPage.NLString "n/a")
   /\ TradingPage.formatNumber Sample.parseFloat (fun _ _ => "0.00")
        (TradingPage.NLString "n/a") None = "-"
   /\ TradingPage.formatPercent Sample.parseFloat (fun _ _ => "0.00")
        (TradingPage.NLString "n/a") = "-"
   /\ TradingPage.getProfitClass Sample.parseFloat (TradingPage.NLString "n/a")
      = "text-muted")
  /\ (~ View.nothing_to_show Sample.parseFloat (TradingPage.NLNumber (Int 0))
      /\ TradingPage.formatPercent Sample.parseFloat (fun _ _ => "0.00")
           (TradingPage.NLNumber (Int 0)) <> "-").
Proof.
  split.
  - assert (H : View.nothing_to_show Sample.parseFloat (TradingPage.NLString "n/a"))
      by reflexivity.
    split; [exact H|].
    exact (proj1 (formatters_agree Sample.parseFloat (fun _ _ => "0.00")
                    (TradingPage.NLString "n/a") None) H).
  - assert (H : ~ View.nothing_to_show Sample.parseFloat
                    (TradingPage.NLNumber (Int 0)))
      by (intros H; discriminate H).
    split; [exact H|].
    exact (proj1 (proj2 (formatters_agree Sample.parseFloat (fun _ _ => "0.00")
                           (TradingPage.NLNumber (Int 0)) None) H)).
Defined.

Lemma sign_matches_colour_gain :
  TradingPage.getProfitClass Sample.parseFloat (TradingPage.NLString "12")
  = "text-emerald-400"
  /\ View.starts_with_plus
       (TradingPage.formatPercent Sample.parseFloat (fun _ _ => "12.00")
          (TradingPage.NLString "12")) = true.
Proof.
  assert (H : TradingPage.getProfitClass Sample.parseFloat (TradingPage.NLString "12")
              = "text-emerald-400") by reflexivity.
  split; [exact H|].
  exact (proj1 (sign_matches_colour Sample.parseFloat (fun _ _ => "12.00")
                  (TradingPage.NLString "12")) H).
Defined.

(** ** The message after a filled order *)

Section FilledFacts.

Import tradingApi TradingPage Page View.

Variable toUpperCase : string -> string.
Variable ToPropertyKey : value -> outcome string.
Variable t : transport.

(** X18: after a filled order the success message of the backend stays
    on screen only if the reload that follows commits; when one of its
    reads rejects, the user is left with the load-failure message instead,
    although the order went through and the form was emptied. *)
Theorem filled_order_message (side : OrderType) (n : nat) (s : state)
    (result : value) :
  ~ invalid_order_input s ->
  answer t n (placeOrder (order_request toUpperCase side s)) = Resolved result ->
  get_prop result "status" = Resolved (VStr "filled") ->
  let s' := fst (run t n (order_handler toUpperCase ToPropertyKey side s)) in
  (forall e,
     promise_all (map (answer t (S n)) loadData_calls) = Rejected e ->
     message s' = Some (mkMessage error (VStr "加载数据失败"))
     /\ stockCode s' = "" /\ quantity s' = "")
  /\ (forall results items stopLossMap,
        promise_all (map (answer t (S n)) loadData_calls) = Resolved results ->
        nth 3 results VUndefined = VArr items ->
        forEach_stopLoss ToPropertyKey items [] = Resolved stopLossMap ->
        message s' = Some (mkMessage success (get_opt result "message"))
        /\ account s' = nth 0 results VUndefined
        /\ positions s' = nth 1 results VUndefined
        /\ stopLosses s' = stopLossMap).
Proof.
  intros H Hr Hst. cbv zeta. rewrite order_handler_unfold.
  rewrite (handleOrder_valid_state toUpperCase ToPropertyKey t _ _ _ n s H), Hr, Hst.
  cbn [is_string String.eqb Ascii.eqb Bool.eqb].
  split.
  - intros e ->. repeat split; reflexivity.
  - intros results items stopLossMap -> Hitems Hmap.
    unfold loadData_settled. rewrite Hitems, Hmap.
    repeat split; reflexivity.
Qed.

End FilledFacts.

Lemma filled_order_message_positions_down :
  let s' := fst (run Sample.positions_down 0
                   (Page.order_handler Sample.toUpperCase Sample.ToPropertyKey buy Sample.order_form)) in
  (~ Page.invalid_order_input Sample.order_form
   /\ get_prop (VObj [("orderId", VNum (Int 1)); ("status", VStr "filled");
                      ("success", VBool true); ("message", VStr "ok");
                      ("stopLoss", VNull)]) "status"
      = Resolved (VStr "filled")
   /\ exists e,
        promise_all (map (answer Sample.positions_down 1)
                       TradingPage.loadData_calls) = Rejected e)
  /\ TradingPage.message s'
     = Some (TradingPage.mkMessage TradingPage.error (VStr "加载数据失败"))
  /\ TradingPage.stockCode s' = "" /\ TradingPage.quantity s' = "".
Proof.
  cbv zeta.
  assert (H : ~ Page.invalid_order_input Sample.order_form)
    by (intros [H|[H|[H|H]]]; vm_compute in H; discriminate H).
  assert (Hall : promise_all (map (answer Sample.positions_down 1)
                                TradingPage.loadData_calls)
                 = Rejected [("message", VStr "Request failed with status code 500")])
    by reflexivity.
  split; [split; [exact H|split; [reflexivity|eexists; exact Hall]]|].
  exact (proj1 (filled_order_message Sample.toUpperCase Sample.ToPropertyKey Sample.positions_down buy 0
                  Sample.order_form _ H eq_refl eq_refl) _ Hall).
Defined.

Lemma order_loading_reset_samples :
  (~ Page.invalid_order_input Sample.order_form
   /\ TradingPage.loading
        (fst (run Sample.offline 0
                (Page.order_handler Sample.toUpperCase Sample.ToPropertyKey buy Sample.order_form)))
      = false)
  /\ (let s := TradingPage.setLoading true
                 (TradingPage.setQuantity "abc" Sample.order_form) in
      let s' := fst (run Sample.offline 0
                       (Page.order_handler Sample.toUpperCase Sample.ToPropertyKey sell s)) in
      Page.invalid_order_input s
      /\ TradingPage.loading s' = TradingPage.loading s
      /\ TradingPage.stockCode s' = TradingPage.stockCode s
      /\ TradingPage.quantity s' = TradingPage.quantity s
      /\ TradingPage.account s' = TradingPage.account s
      /\ TradingPage.positions s' = TradingPage.positions s
      /\ TradingPage.orders s' = TradingPage.orders s
      /\ TradingPage.stopLosses s' = TradingPage.stopLosses s).
Proof.
  cbv zeta. split.
  - assert (H : ~ Page.invalid_order_input Sample.order_form)
      by (intros [H|[H|[H|H]]]; vm_compute in H; discriminate H).
    split; [exact H|].
    exact (proj1 (order_loading_reset Sample.toUpperCase Sample.ToPropertyKey Sample.offline buy 0
                    Sample.order_form) H).
  - assert (H : Page.invalid_order_input
                  (TradingPage.setLoading true
                     (TradingPage.setQuantity "abc" Sample.order_form)))
      by (right; right; left; reflexivity).
    split; [exact H|].
    exact (proj2 (order_loading_reset Sample.toUpperCase Sample.ToPropertyKey Sample.offline sell 0
                    (TradingPage.setLoading true
                       (TradingPage.setQuantity "abc" Sample.order_form))) H).
Defined.
